(** * Backend_Video_Stream: the user controller

    A shallow embedding of the user controller, [user.controller.js], in its
    latest revision (the one that exports [refreshAccessToken]):
    [generateAccessAndRefreshTokens], [registerUser], [loginUser],
    [logoutUser] and [refreshAccessToken], and the properties of these
    handlers.

    Conventions of the embedding.
    - A JavaScript string is a Rocq [string], read as its sequence of code
      units; code units are in the range 0..255 (Latin-1).
    - A request field that may be missing is an [option string]: [None] is
      [undefined].  Text fields of a request are strings or absent.
    - The handlers run in the monad [M]: they read and write the [User]
      collection, record every call to a collaborator (the store and the
      media upload) in a log, and either return or throw.
    - The collaborators that are not part of the controller ([User],
      [uploadOnCloudinary], [jwt], the token and password methods of a user
      document) are either modelled from the specification or taken as
      variables of the section. *)

From Stdlib Require Import List String Ascii Bool Arith.
Import ListNotations.
Open Scope string_scope.
Open Scope nat_scope.
Open Scope list_scope.

Set Implicit Arguments.

(** ** JavaScript strings *)

Module JS.

(** [WhiteSpace] and [LineTerminator] code units below 256: TAB, LF, VT, FF,
    CR, SP and NBSP. *)
Definition isWhiteSpace (c : ascii) : bool :=
  let n := nat_of_ascii c in
  (9 <=? n) && (n <=? 13) || (n =? 32) || (n =? 160).

Fixpoint trimStart (s : string) : string :=
  match s with
  | EmptyString => EmptyString
  | String c r => if isWhiteSpace c then trimStart r else s
  end.

(** [trimEnd] drops the white space that only white space follows. *)
Fixpoint trimEnd (s : string) : string :=
  match s with
  | EmptyString => EmptyString
  | String c r =>
      match trimEnd r with
      | EmptyString => if isWhiteSpace c then EmptyString else String c EmptyString
      | r' => String c r'
      end
  end.

(** [String.prototype.trim] *)
Definition trim (s : string) : string := trimEnd (trimStart s).

(** Upper-case code units below 256: A..Z and the Latin-1 capitals
    U+00C0..U+00DE without the multiplication sign U+00D7. *)
Definition isUpper (c : ascii) : bool :=
  let n := nat_of_ascii c in
  (65 <=? n) && (n <=? 90) || (192 <=? n) && (n <=? 222) && negb (n =? 215).

Definition lowerChar (c : ascii) : ascii :=
  if isUpper c then ascii_of_nat (nat_of_ascii c + 32) else c.

(** [String.prototype.toLowerCase] *)
Fixpoint toLowerCase (s : string) : string :=
  match s with
  | EmptyString => EmptyString
  | String c r => String (lowerChar c) (toLowerCase r)
  end.

(** Truthiness of a value that is a string or [undefined]: only [undefined]
    and the empty string are falsy. *)
Definition truthy (v : option string) : bool :=
  match v with
  | Some s => negb (String.eqb s "")
  | None => false
  end.

(** [a || b] *)
Definition logicalOr (a b : option string) : option string :=
  if truthy a then a else b.

(** [field?.trim() === ""] *)
Definition trimsToEmpty (field : option string) : bool :=
  match field with
  | Some s => String.eqb (trim s) ""
  | None => false
  end.

End JS.

(** ** Errors, values and responses *)

(** What a handler throws.  [ApiError] is the controller's own error, built
    as [new ApiError(statusCode, message)]; [TypeError] is raised by the
    language (a property read on [undefined] or [null]); [LibraryError] is an
    error of a collaborator (the store, the password or token library). *)
Inductive exn : Type :=
| ApiError (statusCode : nat) (message : string)
| TypeError (message : string)
| LibraryError (name message : string).

(** [error.message] *)
Definition message_of (e : exn) : string :=
  match e with
  | ApiError _ m => m
  | TypeError m => m
  | LibraryError _ m => m
  end.

(** The values that travel in a response. *)
#[warnings="-register-all"]
Inductive value : Type :=
| VUndefined
| VNull
| VStr (s : string)
| VId (n : nat)
| VObj (fields : list (string * value)).

(** Own property lookup on an object literal. *)
Fixpoint lookup (k : string) (fields : list (string * value)) : option value :=
  match fields with
  | [] => None
  | (k', v) :: r => if String.eqb k k' then Some v else lookup k r
  end.

Definition hasField (k : string) (v : value) : bool :=
  match v with
  | VObj fields => match lookup k fields with Some _ => true | None => false end
  | _ => false
  end.

(** [new ApiResponse(statusCode, data, message)]: the arguments of the
    constructor. *)
Record ApiResponse : Type := mkApiResponse {
  statusCode : nat;
  data : value;
  message : string
}.

Definition CookieOptions : Type := list (string * bool).

(** What the handler did with [res]: [res.status], each [res.cookie], each
    [res.clearCookie] and [res.json]. *)
Record Response : Type := mkResponse {
  status : nat;
  cookie : list (string * value * CookieOptions);
  clearCookie : list (string * CookieOptions);
  json : ApiResponse
}.

(** ** Requests *)

(** [req.body]: the text fields the handlers read. *)
Module Body.
Record t : Type := mk {
  fullName : option string;
  email : option string;
  username : option string;
  password : option string;
  refreshToken : option string
}.
End Body.

(** An uploaded file as the upload middleware leaves it in [req.files]. *)
Record File : Type := mkFile { path : option string }.

(** [req.files], keyed by form field; a field with no upload is absent. *)
Module Files.
Record t : Type := mk {
  avatar : option (list File);
  coverImage : option (list File)
}.
End Files.

(** ** The [User] collection *)

(** A stored account.  The creation and update timestamps are left out: no
    handler reads them. *)
Module Doc.
Record t : Type := mk {
  _id : nat;
  username : string;
  email : string;
  fullName : string;
  avatar : string;
  coverImage : string;
  password : string;
  refreshToken : option string
}.

(** [user.refreshToken = v] *)
Definition setRefreshToken (d : t) (v : option string) : t :=
  mk (_id d) (username d) (email d) (fullName d) (avatar d) (coverImage d)
     (password d) v.

(** The document as a plain object; a field that is not set is not a key. *)
Definition toObject (d : t) : list (string * value) :=
  [ ("_id", VId (_id d));
    ("username", VStr (username d));
    ("email", VStr (email d));
    ("fullName", VStr (fullName d));
    ("avatar", VStr (avatar d));
    ("coverImage", VStr (coverImage d));
    ("password", VStr (password d)) ]
  ++ match refreshToken d with
     | Some tok => [("refreshToken", VStr tok)]
     | None => []
     end.
End Doc.

(** The argument of [User.create] in [registerUser]. *)
Module NewUser.
Record t : Type := mk {
  fullName : option string;
  avatar : string;
  coverImage : string;
  email : option string;
  password : option string;
  username : string
}.
End NewUser.

(** [req]: the body, the [refreshToken] cookie, the uploaded files and the
    acting user that the authentication middleware sets. *)
Record Request : Type := mkRequest {
  body : Body.t;
  cookies_refreshToken : option string;
  files : option Files.t;
  user : option Doc.t
}.

(** The result of [uploadOnCloudinary] when it is not [null]. *)
Record Upload : Type := mkUpload { url : string }.

(** A call to a collaborator, as the log of a run records it. *)
Inductive call : Type :=
| FindOne (username email : option string)
| FindById (id : option nat)
| Create (fields : NewUser.t)
| Save (d : Doc.t)
| UnsetRefreshToken (id : nat)
| UploadOnCloudinary (localFilePath : option string).

(** The state a handler runs in: the stored accounts and the log. *)
Record World : Type := mkWorld {
  docs : list Doc.t;
  calls : list call
}.

Definition logged (c : call) (w : World) : World :=
  mkWorld (docs w) (calls w ++ [c]).

(** ** The monad of the handlers: state and exceptions *)

Definition M (A : Type) : Type := World -> (exn + A) * World.

Definition ret {A} (a : A) : M A := fun w => (inr a, w).

Definition throw {A} (e : exn) : M A := fun w => (inl e, w).

Definition bind {A B} (m : M A) (k : A -> M B) : M B :=
  fun w =>
    match m w with
    | (inr a, w') => k a w'
    | (inl e, w') => (inl e, w')
    end.

(** [try { m } catch (error) { handler }]: the writes of [m] stay. *)
Definition tryCatch {A} (m : M A) (handler : exn -> M A) : M A :=
  fun w =>
    match m w with
    | (inr a, w') => (inr a, w')
    | (inl e, w') => handler e w'
    end.

(** A pure computation that may throw. *)
Definition lift {A} (r : exn + A) : M A := fun w => (r, w).

Declare Scope handler_scope.
Delimit Scope handler_scope with handler.
Notation "x <- c1 ;; c2" := (bind c1 (fun x => c2))
  (at level 61, c1 at next level, right associativity) : handler_scope.
Notation "' pat <- c1 ;; c2" := (bind c1 (fun x => match x with pat => c2 end))
  (at level 61, pat pattern, c1 at next level, right associativity) : handler_scope.
Notation "c1 ;; c2" := (bind c1 (fun _ => c2))
  (at level 61, right associativity) : handler_scope.

(** ** The collaborators *)

Section Controller.

(** The password hash applied when an account is saved with a new password. *)
Variable hashPassword : string -> string.

(** [user.isPasswordCorrect(password)], a method of the stored document. *)
Variable isPasswordCorrect : Doc.t -> option string -> exn + bool.

(** [user.generateAccessToken()] and [user.generateRefreshToken()]. *)
Variable generateAccessToken : Doc.t -> string.
Variable generateRefreshToken : Doc.t -> string.

(** The media upload: the upload of a local file, or [null]. *)
Variable upload : option string -> option Upload.

(** [jwt.verify(token, process.env.REFRESH_TOKEN_SECRET)] seen through what
    the handler reads of it: it throws, or it returns a payload whose [_id]
    may be missing.  The file has no import of [jwt]; the run in which the
    name is unbound is the instance that always throws the reference
    error. *)
Variable jwt_verify : option string -> exn + option nat.

(** The loose equality [b == s] of a boolean and a string, which compares
    the numbers both convert to. *)
Variable looseEq : bool -> string -> bool.

(** Modelled from the spec: [User.findById] (the model file is missing), the
    store's find-by-id: the account with that identifier, or [null]. *)
Definition User_findById (id : option nat) : M (option Doc.t) :=
  fun w =>
    (inr match id with
         | Some n => find (fun d => Doc._id d =? n) (docs w)
         | None => None
         end,
     logged (FindById id) w).

Definition matchesEither (username email : option string) (d : Doc.t) : bool :=
  match username with
  | Some u => String.eqb (Doc.username d) u
  | None => false
  end
  ||
  match email with
  | Some e => String.eqb (Doc.email d) e
  | None => false
  end.

(** Modelled from the spec: [User.findOne({$or: [{username}, {email}]})] (the
    model file is missing), the store's find-by-username-or-email: the first
    account whose username is the given username or whose email is the given
    email, or [null]. *)
Definition User_findOne (username email : option string) : M (option Doc.t) :=
  fun w =>
    (inr (find (matchesEither username email) (docs w)),
     logged (FindOne username email) w).

Definition freshId (ds : list Doc.t) : nat :=
  S (fold_right Nat.max 0 (map Doc._id ds)).

(** Modelled from the spec: [User.create] (the model file is missing).  Full
    name, email and password are required attributes; username and email are
    unique by the store's index, which rejects a second write; the password
    is stored hashed and the new account has no refresh token. *)
Definition User_create (fields : NewUser.t) : M Doc.t :=
  fun w =>
    let w1 := logged (Create fields) w in
    match NewUser.fullName fields, NewUser.email fields, NewUser.password fields with
    | Some fullName, Some email, Some password =>
        if existsb (matchesEither (Some (NewUser.username fields)) (Some email)) (docs w)
        then (inl (LibraryError "MongoServerError" "E11000 duplicate key error"), w1)
        else
          let d := Doc.mk (freshId (docs w)) (NewUser.username fields) email fullName
                     (NewUser.avatar fields) (NewUser.coverImage fields)
                     (hashPassword password) None in
          (inr d, mkWorld (docs w ++ [d]) (calls w1))
    | _, _, _ =>
        (inl (LibraryError "ValidationError" "User validation failed"), w1)
    end.

(** Modelled from the spec: [user.save({validateBeforeSave: false})] (the
    model file is missing), the store's save: the stored account with the
    identifier of [user] becomes [user]. *)
Definition user_save (user : Doc.t) : M unit :=
  fun w =>
    (inr tt,
     mkWorld (map (fun d => if Doc._id d =? Doc._id user then user else d) (docs w))
             (calls w ++ [Save user])).

(** Modelled from the spec: [User.findByIdAndUpdate(id, {$unset:
    {refreshToken: 1}}, {new: true})] (the model file is missing), the
    store's update-by-id: the refresh token of that account is removed and
    the updated account, or [null], is returned. *)
Definition User_findByIdAndUpdate_unset (id : nat) : M (option Doc.t) :=
  fun w =>
    let ds := map (fun d => if Doc._id d =? id then Doc.setRefreshToken d None else d)
                  (docs w) in
    (inr (find (fun d => Doc._id d =? id) ds),
     mkWorld ds (calls w ++ [UnsetRefreshToken id])).

(** The space-separated items of a projection string. *)
Fixpoint items (cur s : string) : list string :=
  match s with
  | EmptyString => [cur]
  | String c r =>
      if Ascii.eqb c " " then cur :: items "" r
      else items (cur ++ String c "") r
  end.

(** The fields a projection excludes: its items that start with a minus. *)
Definition excluded (projection : string) : list string :=
  flat_map (fun item => match item with
                        | String "-" field => [field]
                        | _ => []
                        end)
           (items "" projection).

(** Modelled from the spec: [.select(projection)] on a found document (the
    model file is missing): the account with the excluded fields omitted;
    [null] stays [null]. *)
Definition select (projection : string) (found : option Doc.t) : value :=
  match found with
  | Some d =>
      VObj (filter (fun kv => negb (existsb (String.eqb (fst kv)) (excluded projection)))
                   (Doc.toObject d))
  | None => VNull
  end.

(** Modelled from the spec: [uploadOnCloudinary(localFilePath)] (the utility
    file is missing), the media-upload service: [upload(localFilePath)]
    gives [{url}] or fails. *)
Definition uploadOnCloudinary (localFilePath : option string) : M (option Upload) :=
  fun w => (inr (upload localFilePath), logged (UploadOnCloudinary localFilePath) w).

(** ** The handlers *)

Local Open Scope handler_scope.

Definition options : CookieOptions := [("httpOnly", true); ("secure", true)].

(** [generateAccessAndRefreshTokens(userId)].  [user.generateAccessToken()]
    on a missing user is a type error, which the [catch] turns, like every
    other error of the block, into the 500. *)
Definition generateAccessAndRefreshTokens (userId : nat) : M (string * string) :=
  tryCatch
    (user <- User_findById (Some userId) ;;
     match user with
     | None =>
         throw (TypeError "Cannot read properties of null (reading 'generateAccessToken')")
     | Some user =>
         let accessToken := generateAccessToken user in
         let refreshToken := generateRefreshToken user in
         let user := Doc.setRefreshToken user (Some refreshToken) in
         user_save user ;;
         ret (accessToken, refreshToken)
     end)
    (fun _ =>
       throw (ApiError 500 "Something went wrong while generating refresh and access token")).

(** [[fullName, email, username, password]] *)
Definition requiredFields (b : Body.t) : list (option string) :=
  [Body.fullName b; Body.email b; Body.username b; Body.password b].

(** [[fullName, email, username, password].some((field) => field?.trim() === "")] *)
Definition someFieldBlank (b : Body.t) : bool :=
  existsb JS.trimsToEmpty (requiredFields b).

(** [req.files?.avatar[0]?.path]: the read of index 0 is not guarded. *)
Definition avatarPath (files : option Files.t) : exn + option string :=
  match files with
  | None => inr None
  | Some fs =>
      match Files.avatar fs with
      | None => inl (TypeError "Cannot read properties of undefined (reading '0')")
      | Some [] => inr None
      | Some (f :: _) => inr (path f)
      end
  end.

(** The value of [coverImageLocalPath] after the guarded assignment. *)
Definition coverImagePath (files : option Files.t) : option string :=
  match files with
  | Some fs =>
      match Files.coverImage fs with
      | Some (f :: _) => path f
      | _ => None
      end
  | None => None
  end.

(** [coverImage?.url || ""] *)
Definition coverImageUrl (coverImage : option Upload) : string :=
  match coverImage with
  | Some u => url u
  | None => ""
  end.

(** [registerUser] *)
Definition registerUser (req : Request) : M Response :=
  let fullName := Body.fullName (body req) in
  let email := Body.email (body req) in
  let username := Body.username (body req) in
  let password := Body.password (body req) in
  if someFieldBlank (body req) then
    throw (ApiError 400 "All fields are required")
  else
    existedUser <- User_findOne username email ;;
    match existedUser with
    | Some _ => throw (ApiError 409 "User with email or username already exists")
    | None =>
        avatarLocalPath <- lift (avatarPath (files req)) ;;
        let coverImageLocalPath := coverImagePath (files req) in
        if negb (JS.truthy avatarLocalPath) then
          throw (ApiError 400 "Avatar file is required")
        else
          avatar <- uploadOnCloudinary avatarLocalPath ;;
          coverImage <- uploadOnCloudinary coverImageLocalPath ;;
          match avatar with
          | None => throw (ApiError 400 "Avatar file is required")
          | Some avatar =>
              match username with
              | None =>
                  throw (TypeError
                    "Cannot read properties of undefined (reading 'toLowerCase')")
              | Some username =>
                  user <- User_create
                            (NewUser.mk fullName (url avatar) (coverImageUrl coverImage)
                                        email password (JS.toLowerCase username)) ;;
                  found <- User_findById (Some (Doc._id user)) ;;
                  match found with
                  | None =>
                      throw (ApiError 500 "Something went wrong while user registration!")
                  | Some _ =>
                      ret (mkResponse 201 [] []
                             (mkApiResponse 200 (select "-password -refreshToken" found)
                                            "User registered Successfully!!!"))
                  end
              end
          end
    end.

(** [loginUser] *)
Definition loginUser (req : Request) : M Response :=
  let email := Body.email (body req) in
  let username := Body.username (body req) in
  let password := Body.password (body req) in
  if negb (JS.truthy username) || negb (JS.truthy email) then
    throw (ApiError 400 "username or email is required")
  else
    user <- User_findOne username email ;;
    match user with
    | None => throw (ApiError 404 "User does not exist")
    | Some user =>
        isPasswordValid <- lift (isPasswordCorrect user password) ;;
        if negb isPasswordValid then
          throw (ApiError 401 "Password invalid")
        else
          '(accessToken, refreshToken) <- generateAccessAndRefreshTokens (Doc._id user) ;;
          found <- User_findById (Some (Doc._id user)) ;;
          let loggedInUser := select "-password -refreshToken" found in
          ret (mkResponse 200
                 [("accessToken", VStr accessToken, options);
                  ("refreshToken", VStr refreshToken, options)]
                 []
                 (mkApiResponse 200
                    (VObj [("user", loggedInUser);
                           ("accessToken", VStr accessToken);
                           ("refreshToken", VStr refreshToken)])
                    "User logged In Successfully"))
    end.

(** [logoutUser]; [req.user._id] on a request with no acting user is a type
    error. *)
Definition logoutUser (req : Request) : M Response :=
  match user req with
  | None => throw (TypeError "Cannot read properties of undefined (reading '_id')")
  | Some actor =>
      User_findByIdAndUpdate_unset (Doc._id actor) ;;
      ret (mkResponse 200 []
             [("accessToken", options); ("refreshToken", options)]
             (mkApiResponse 200 (VObj []) "User logged Out"))
  end.

(** [!incomingRefreshToken != user?.refreshToken]: the negation is applied
    first, so a boolean is compared, loosely, with the stored token; a
    boolean never equals [undefined]. *)
Definition tokenCheckFails (incomingRefreshToken stored : option string) : bool :=
  match stored with
  | Some tok => negb (looseEq (negb (JS.truthy incomingRefreshToken)) tok)
  | None => true
  end.

(** [error?.message || "Invalid refresh token"] *)
Definition messageOr (e : exn) (fallback : string) : string :=
  if String.eqb (message_of e) "" then fallback else message_of e.

(** The cookie options of [refreshAccessToken], as written there. *)
Definition refreshOptions : CookieOptions := [("httpsOnly", true); ("secure", true)].

(** [refreshAccessToken].  The object that [generateAccessAndRefreshTokens]
    returns has no [newRefreshToken] key, so the destructured
    [newRefreshToken] is [undefined]. *)
Definition refreshAccessToken (req : Request) : M Response :=
  let incomingRefreshToken :=
    JS.logicalOr (cookies_refreshToken req) (Body.refreshToken (body req)) in
  if JS.truthy incomingRefreshToken then
    throw (ApiError 401 "Unauthorized request")
  else
    tryCatch
      (decodedId <- lift (jwt_verify incomingRefreshToken) ;;
       user <- User_findById decodedId ;;
       match user with
       | None => throw (ApiError 401 "Invalid refresh token")
       | Some user =>
           if tokenCheckFails incomingRefreshToken (Doc.refreshToken user) then
             throw (ApiError 401 "Refresh token is expired or used")
           else
             '(accessToken, _) <- generateAccessAndRefreshTokens (Doc._id user) ;;
             let newRefreshToken := VUndefined in
             ret (mkResponse 200
                    [("accessToken", VStr accessToken, refreshOptions);
                     ("refreshToken", newRefreshToken, refreshOptions)]
                    []
                    (mkApiResponse 200
                       (VObj [("accessToken", VStr accessToken);
                              ("refreshToken", newRefreshToken)])
                       "Access token refreshed"))
       end)
      (fun error => throw (ApiError 401 (messageOr error "Invalid refresh token"))).

End Controller.

(** ** Vocabulary of the properties *)

(** A field that is present and blank: a string that trims to the empty
    string. *)
Definition isBlank (field : option string) : Prop :=
  exists s, field = Some s /\ JS.trim s = "".

(** The handler threw an [ApiError] with this status. *)
Definition rejectsWith (statusCode : nat) (r : (exn + Response) * World) : Prop :=
  exists message, fst r = inl (ApiError statusCode message).

(** Some stored account has the username or the email of the request. *)
Definition alreadyStored (b : Body.t) (w : World) : Prop :=
  exists d, In d (docs w) /\
    (Body.username b = Some (Doc.username d) \/ Body.email b = Some (Doc.email d)).

(** No stored account has the username or the email of the request. *)
Definition notStored (b : Body.t) (w : World) : Prop :=
  forall d, In d (docs w) ->
    Body.username b <> Some (Doc.username d) /\ Body.email b <> Some (Doc.email d).

(** Every stored username is in lower case. *)
Definition usernamesLowercase (w : World) : Prop :=
  forall d, In d (docs w) -> JS.toLowerCase (Doc.username d) = Doc.username d.

(** The request carries no usable avatar file: there is no [req.files], or
    the list of avatar uploads is empty, or its first file has no path. *)
Definition noAvatarFile (fs : option Files.t) : Prop :=
  fs = None \/
  exists f, fs = Some f /\
    (Files.avatar f = Some [] \/
     exists first others,
       Files.avatar f = Some (first :: others) /\ JS.truthy (path first) = false).

(** The world in which [registerUser] calls [User.create]: after the lookup
    and the two uploads. *)
Definition beforeCreate (req : Request) (p : option string) (w : World) : World :=
  mkWorld (docs w)
    (calls w ++
       [FindOne (Body.username (body req)) (Body.email (body req));
        UploadOnCloudinary p;
        UploadOnCloudinary (coverImagePath (files req))]).

(** The argument [registerUser] passes to [User.create]. *)
Definition createFields (upload : option string -> option Upload)
    (req : Request) (avatar : Upload) (username : string) : NewUser.t :=
  NewUser.mk (Body.fullName (body req)) (url avatar)
    (coverImageUrl (upload (coverImagePath (files req))))
    (Body.email (body req)) (Body.password (body req)) (JS.toLowerCase username).

(** ** Sample collaborators, accounts and requests *)

Module Sample.

Definition hashPassword (s : string) : string := "hashed:" ++ s.

Definition isPasswordCorrect (d : Doc.t) (password : option string) : exn + bool :=
  match password with
  | Some p => inr (String.eqb (hashPassword p) (Doc.password d))
  | None => inl (LibraryError "Error" "data and hash arguments required")
  end.

Definition generateAccessToken (d : Doc.t) : string := "access." ++ Doc.username d.

Definition generateRefreshToken (d : Doc.t) : string := "refresh2." ++ Doc.username d.

Definition upload (localFilePath : option string) : option Upload :=
  match localFilePath with
  | Some p => if String.eqb p "" then None else Some (mkUpload ("https://media.example/" ++ p))
  | None => None
  end.

(** A verifier that accepts the two refresh tokens in use. *)
Definition jwt_verify (token : option string) : exn + option nat :=
  match token with
  | Some tok =>
      if String.eqb tok "refresh.ab1" then inr (Some 1)
      else if String.eqb tok "refresh.old.ab1" then inr (Some 1)
      else inl (LibraryError "JsonWebTokenError" "jwt malformed")
  | None => inl (LibraryError "JsonWebTokenError" "jwt must be provided")
  end.

Definition looseEq (b : bool) (s : string) : bool :=
  String.eqb s (if b then "1" else "0").

(** The account of the specification's example scenario, logged in. *)
Definition ab1 : Doc.t :=
  Doc.mk 1 "ab1" "a@b.com" "A B" "https://media.example/a.png" ""
         "hashed:pw123456" (Some "refresh.ab1").

Definition empty : World := mkWorld [] [].

Definition world : World := mkWorld [ab1] [].

Definition avatarUpload : option Files.t :=
  Some (Files.mk (Some [mkFile (Some "tmp/a.png")]) None).

Definition request (b : Body.t) (fs : option Files.t) : Request :=
  mkRequest b None fs None.

(** The registration of the specification's example scenario. *)
Definition register_ab1 : Request :=
  request (Body.mk (Some "A B") (Some "a@b.com") (Some "ab1") (Some "pw123456") None)
          avatarUpload.

(** A blank password. *)
Definition register_blank : Request :=
  request (Body.mk (Some "C D") (Some "c@d.com") (Some "cd2") (Some "   ") None)
          avatarUpload.

(** The username of [ab1] and a blank full name. *)
Definition register_taken_blank : Request :=
  request (Body.mk (Some "") (Some "x@y.com") (Some "ab1") (Some "pw123456") None)
          avatarUpload.

(** The username of [ab1] and no upload at all. *)
Definition register_taken_no_files : Request :=
  request (Body.mk (Some "A B") (Some "x@y.com") (Some "ab1") (Some "pw123456") None)
          None.

(** A new username and email and no upload at all. *)
Definition register_new_no_files : Request :=
  request (Body.mk (Some "C D") (Some "c@d.com") (Some "cd2") (Some "pw654321") None)
          None.

(** The username of [ab1] in capitals, with a new email. *)
Definition register_capitals : Request :=
  request (Body.mk (Some "A B") (Some "x@y.com") (Some "AB1") (Some "pw123456") None)
          avatarUpload.

(** The username of [ab1] in capitals, with the email of [ab1]. *)
Definition register_capitals_same_email : Request :=
  request (Body.mk (Some "A B") (Some "a@b.com") (Some "AB1") (Some "pw123456") None)
          avatarUpload.

(** A login with the username and the right password, and no email. *)
Definition login_username_only : Request :=
  request (Body.mk None None (Some "ab1") (Some "pw123456") None) None.

(** A login with both identifiers and the right password. *)
Definition login_both : Request :=
  request (Body.mk None (Some "a@b.com") (Some "ab1") (Some "pw123456") None) None.

(** A logout of [ab1], as the authentication middleware passes it on. *)
Definition logout_ab1 : Request :=
  mkRequest (Body.mk None None None None None) (Some "refresh.ab1") None (Some ab1).

(** A refresh with the token stored on [ab1], in the cookie. *)
Definition refresh_current : Request :=
  mkRequest (Body.mk None None None None None) (Some "refresh.ab1") None None.

(** A refresh with an older token of [ab1], in the body. *)
Definition refresh_stale : Request :=
  mkRequest (Body.mk None None None None (Some "refresh.old.ab1")) None None None.

Definition registerUser := registerUser hashPassword upload.
Definition loginUser := loginUser isPasswordCorrect generateAccessToken generateRefreshToken.
Definition refreshAccessToken :=
  refreshAccessToken generateAccessToken generateRefreshToken jwt_verify looseEq.

End Sample.

(** ** The profile handlers *)

(** What the profile handlers read of [req] besides the fields of [Request]:
    [req.body.oldPassword], [req.body.newPassword] and [req.file], the single
    upload. *)
Record ProfileRequest : Type := mkProfileRequest {
  base : Request;
  oldPassword : option string;
  newPassword : option string;
  file : option File
}.

(** [req.user?._id] *)
Definition actorId (req : Request) : option nat :=
  match user req with
  | Some actor => Some (Doc._id actor)
  | None => None
  end.

(** The accounts with identifier [id] changed by [f], the others kept. *)
Definition updateById (id : nat) (f : Doc.t -> Doc.t) (ds : list Doc.t) : list Doc.t :=
  map (fun d => if Doc._id d =? id then f d else d) ds.

Definition setPassword (hashed : string) (d : Doc.t) : Doc.t :=
  Doc.mk (Doc._id d) (Doc.username d) (Doc.email d) (Doc.fullName d) (Doc.avatar d)
         (Doc.coverImage d) hashed (Doc.refreshToken d).

(** [{$set: {fullName, email}}]; the guard of the handler lets no
    [undefined] through, which would leave the field as it is. *)
Definition setDetails (fullName email : option string) (d : Doc.t) : Doc.t :=
  Doc.mk (Doc._id d) (Doc.username d)
         (match email with Some e => e | None => Doc.email d end)
         (match fullName with Some f => f | None => Doc.fullName d end)
         (Doc.avatar d) (Doc.coverImage d) (Doc.password d) (Doc.refreshToken d).

(** [{$set: {avatar: url}}] *)
Definition setAvatar (url : string) (d : Doc.t) : Doc.t :=
  Doc.mk (Doc._id d) (Doc.username d) (Doc.email d) (Doc.fullName d) url
         (Doc.coverImage d) (Doc.password d) (Doc.refreshToken d).

(** [{$set: {coverImage: url}}] *)
Definition setCoverImage (url : string) (d : Doc.t) : Doc.t :=
  Doc.mk (Doc._id d) (Doc.username d) (Doc.email d) (Doc.fullName d) (Doc.avatar d)
         url (Doc.password d) (Doc.refreshToken d).

(** Another account than [id] has this email. *)
Definition emailTaken (id : nat) (email : option string) (ds : list Doc.t) : bool :=
  existsb (fun d => negb (Doc._id d =? id) &&
                    match email with
                    | Some e => String.eqb (Doc.email d) e
                    | None => false
                    end) ds.

Section Profile.

Variable hashPassword : string -> string.

(** What the save makes of a password that was set to [undefined]: the hash
    it stores, or the error it throws.  The model file is missing and the
    specification does not say. *)
Variable hashUndefined : exn + string.

Variable isPasswordCorrect : Doc.t -> option string -> exn + bool.

Variable upload : option string -> option Upload.

(** [User.findByIdAndUpdate(undefined, {$set: ...}, {new: true})]: what the
    store does when the identifier is [undefined] is the library's
    business. *)
Variable updateWithoutId : (Doc.t -> Doc.t) -> M (option Doc.t).

(** Modelled from the spec: [User.findByIdAndUpdate(id, {$set: ...}, {new:
    true})] (the model file is missing), the store's update-by-id: the
    account with that identifier is changed and returned, or [null].  The log
    has no entry for this call. *)
Definition User_findByIdAndUpdate_set (id : option nat) (f : Doc.t -> Doc.t)
  : M (option Doc.t) :=
  match id with
  | None => updateWithoutId f
  | Some n =>
      fun w =>
        let ds := updateById n f (docs w) in
        (inr (find (fun d => Doc._id d =? n) ds), mkWorld ds (calls w))
  end.

(** Modelled from the spec: the same update when it sets the email, which is
    unique by the store's index: the write is rejected when it would give
    the account the email of another one. *)
Definition User_findByIdAndUpdate_details (id : option nat)
    (fullName email : option string) : M (option Doc.t) :=
  match id with
  | None => updateWithoutId (setDetails fullName email)
  | Some n =>
      fun w =>
        if existsb (fun d => Doc._id d =? n) (docs w) && emailTaken n email (docs w)
        then (inl (LibraryError "MongoServerError" "E11000 duplicate key error"), w)
        else User_findByIdAndUpdate_set id (setDetails fullName email) w
  end.

(** The hash the save stores for the assigned password. *)
Definition hashAssigned (password : option string) : exn + string :=
  match password with
  | Some p => inr (hashPassword p)
  | None => hashUndefined
  end.

(** Modelled from the spec: [user.password = newPassword] followed by
    [user.save({validateBeforeSave: false})] (the model file is missing):
    the new password is stored hashed, the rest of the account is saved as
    it was read. *)
Definition user_savePassword (user : Doc.t) (newPassword : option string) : M unit :=
  fun w =>
    match hashAssigned newPassword with
    | inl e => (inl e, w)
    | inr hashed =>
        let user := setPassword hashed user in
        (inr tt,
         mkWorld (updateById (Doc._id user) (fun _ => user) (docs w))
                 (calls w ++ [Save user]))
    end.

Local Open Scope handler_scope.

(** [changeCurrentPassword]; [user.isPasswordCorrect] on a user that was not
    found is a type error. *)
Definition changeCurrentPassword (req : ProfileRequest) : M Response :=
  let oldPassword := oldPassword req in
  let newPassword := newPassword req in
  user <- User_findById (actorId (base req)) ;;
  match user with
  | None =>
      throw (TypeError "Cannot read properties of null (reading 'isPasswordCorrect')")
  | Some user =>
      isPasswordCorrect <- lift (isPasswordCorrect user oldPassword) ;;
      if negb isPasswordCorrect then
        throw (ApiError 400 "Invalid old password")
      else
        user_savePassword user newPassword ;;
        ret (mkResponse 200 [] []
               (mkApiResponse 200 (VObj []) "Password changed successfully"))
  end.

(** [updateAccountDetails] *)
Definition updateAccountDetails (req : ProfileRequest) : M Response :=
  let fullName := Body.fullName (body (base req)) in
  let email := Body.email (body (base req)) in
  if negb (JS.truthy fullName) || negb (JS.truthy email) then
    throw (ApiError 400 "All fields are required")
  else
    user <- User_findByIdAndUpdate_details (actorId (base req)) fullName email ;;
    ret (mkResponse 200 [] []
           (mkApiResponse 200 (select "-password" user)
                          "Account details updated successfully!")).

(** [req.file?.path] *)
Definition filePath (f : option File) : option string :=
  match f with
  | Some f => path f
  | None => None
  end.

(** [updateUserAvatar].  [avatar.url] on an upload that gave [null] is a
    type error.  The handler ends without a call on [res]: its result is
    the response it sent, if any. *)
Definition updateUserAvatar (req : ProfileRequest) : M (option Response) :=
  let avatarLocalPath := filePath (file req) in
  if negb (JS.truthy avatarLocalPath) then
    throw (ApiError 400 "Avatar file is missing")
  else
    avatar <- uploadOnCloudinary upload avatarLocalPath ;;
    match avatar with
    | None => throw (TypeError "Cannot read properties of null (reading 'url')")
    | Some avatar =>
        if String.eqb (url avatar) "" then
          throw (ApiError 400 "Error while uploading on avatar")
        else
          User_findByIdAndUpdate_set (actorId (base req)) (setAvatar (url avatar)) ;;
          ret None
    end.

(** [updateUserCoverImage] *)
Definition updateUserCoverImage (req : ProfileRequest) : M (option Response) :=
  let coverImageLocalPath := filePath (file req) in
  if negb (JS.truthy coverImageLocalPath) then
    throw (ApiError 400 "Cover Image file is missing")
  else
    coverImage <- uploadOnCloudinary upload coverImageLocalPath ;;
    match coverImage with
    | None => throw (TypeError "Cannot read properties of null (reading 'url')")
    | Some coverImage =>
        if String.eqb (url coverImage) "" then
          throw (ApiError 400 "Error while uploading on Cover Image")
        else
          user <- User_findByIdAndUpdate_set (actorId (base req))
                    (setCoverImage (url coverImage)) ;;
          ret (Some (mkResponse 200 [] []
                       (mkApiResponse 200 (select "-password" user)
                                      "Cover Image updated successfully")))
    end.

End Profile.

(** ** Vocabulary of the further properties *)

(** Identifiers, usernames and emails are unique among the stored
    accounts. *)
Definition uniqueAccounts (w : World) : Prop :=
  NoDup (map Doc._id (docs w))
  /\ NoDup (map Doc.username (docs w))
  /\ NoDup (map Doc.email (docs w)).

(** The stored accounts with their refresh tokens erased: what the session
    handlers must leave alone. *)
Definition withoutTokens (w : World) : list Doc.t :=
  map (fun d => Doc.setRefreshToken d None) (docs w).

(** The stored account with this identifier. *)
Definition account (id : nat) (w : World) : option Doc.t :=
  find (fun d => Doc._id d =? id) (docs w).

(** The password method agrees with the hash of the store: a password is
    correct for an account exactly when its hash is the stored one. *)
Definition passwordsAgree (hashPassword : string -> string)
    (isPasswordCorrect : Doc.t -> option string -> exn + bool) : Prop :=
  forall d p, isPasswordCorrect d (Some p) = inr (String.eqb (hashPassword p) (Doc.password d)).

(** The account as [generateAccessAndRefreshTokens] saves it: with the
    refresh token it has just generated. *)
Definition issued (generateRefreshToken : Doc.t -> string) (u : Doc.t) : Doc.t :=
  Doc.setRefreshToken u (Some (generateRefreshToken u)).

(** The value of a field of an object, if it is one. *)
Definition fieldOf (k : string) (v : value) : option value :=
  match v with
  | VObj fields => lookup k fields
  | _ => None
  end.

(** The account a registration stores: a fresh identifier, the username in
    lower case, the password hashed, the urls of the uploads, no refresh
    token. *)
Definition registeredAccount (hashPassword : string -> string)
    (upload : option string -> option Upload) (req : Request) (w : World)
    (fullName email username password : string) (avatar : Upload) : Doc.t :=
  Doc.mk (freshId (docs w)) (JS.toLowerCase username) email fullName (url avatar)
         (coverImageUrl (upload (coverImagePath (files req))))
         (hashPassword password) None.

(** A registration request that nothing stops: the four fields are present
    and not blank, no stored account has the username (as submitted or in
    lower case) or the email, and the first avatar file has a path [p] whose
    upload gives [avatar]. *)
Definition canRegister (upload : option string -> option Upload) (req : Request)
    (w : World) (fullName email username password : string) (p : option string)
    (avatar : Upload) : Prop :=
  (forall field, In field (requiredFields (body req)) -> ~ isBlank field)
  /\ Body.fullName (body req) = Some fullName
  /\ Body.email (body req) = Some email
  /\ Body.username (body req) = Some username
  /\ Body.password (body req) = Some password
  /\ (forall d, In d (docs w) ->
        Doc.username d <> username
        /\ Doc.username d <> JS.toLowerCase username
        /\ Doc.email d <> email)
  /\ avatarPath (files req) = inr p
  /\ JS.truthy p = true
  /\ upload p = Some avatar.

(** ** Further samples *)

Module SampleProfile.

Definition hashUndefined : exn + string :=
  inl (LibraryError "Error" "data and salt arguments required").

Definition updateWithoutId (f : Doc.t -> Doc.t) : M (option Doc.t) := ret None.

(** A second account, logged out. *)
Definition cd2 : Doc.t :=
  Doc.mk 2 "cd2" "c@d.com" "C D" "https://media.example/c.png" ""
         "hashed:pw654321" None.

Definition world : World := mkWorld [Sample.ab1; cd2] [].

(** A request of [ab1], authenticated. *)
Definition as_ab1 (b : Body.t) (oldPassword newPassword : option string)
    (file : option File) : ProfileRequest :=
  mkProfileRequest (mkRequest b None None (Some Sample.ab1)) oldPassword newPassword file.

Definition noBody : Body.t := Body.mk None None None None None.

Definition change_password : ProfileRequest :=
  as_ab1 noBody (Some "pw123456") (Some "pw-new") None.

Definition change_password_wrong : ProfileRequest :=
  as_ab1 noBody (Some "guess") (Some "pw-new") None.

Definition update_details : ProfileRequest :=
  as_ab1 (Body.mk (Some "A. B.") (Some "ab@b.com") None None None) None None None.

Definition update_details_taken : ProfileRequest :=
  as_ab1 (Body.mk (Some "A. B.") (Some "c@d.com") None None None) None None None.

Definition upload_file : ProfileRequest :=
  as_ab1 noBody None None (Some (mkFile (Some "tmp/new.png"))).

(** No file. *)
Definition upload_nothing : ProfileRequest :=
  as_ab1 noBody None None None.

(** A media service that is down: every upload gives [null]. *)
Definition uploadFails (localFilePath : option string) : option Upload := None.

(** A password change with no acting user. *)
Definition change_password_nobody : ProfileRequest :=
  mkProfileRequest (mkRequest noBody None None None) (Some "pw123456") (Some "pw-new") None.

(** A login of [ab1] with a wrong password. *)
Definition login_wrong : Request :=
  Sample.request (Body.mk None (Some "a@b.com") (Some "ab1") (Some "wrong") None) None.

(** A login of [ab1] with the password of [change_password]. *)
Definition login_new_password : Request :=
  Sample.request (Body.mk None (Some "a@b.com") (Some "ab1") (Some "pw-new") None) None.

(** A registration that nothing stops in [world]; the username has a
    capital. *)
Definition register_ef : Request :=
  Sample.request (Body.mk (Some "E F") (Some "e@f.com") (Some "Ef3") (Some "pw-ef") None)
                 Sample.avatarUpload.

(** The same registration with a [req.files] that has no [avatar] entry. *)
Definition register_ef_no_entry : Request :=
  Sample.request (Body.mk (Some "E F") (Some "e@f.com") (Some "Ef3") (Some "pw-ef") None)
                 (Some (Files.mk None None)).

(** The same registration without the username. *)
Definition register_ef_no_username : Request :=
  Sample.request (Body.mk (Some "E F") (Some "e@f.com") None (Some "pw-ef") None)
                 Sample.avatarUpload.

Definition avatar_ef : Upload := mkUpload "https://media.example/tmp/a.png".

Definition changeCurrentPassword :=
  changeCurrentPassword Sample.hashPassword hashUndefined Sample.isPasswordCorrect.
Definition updateAccountDetails := updateAccountDetails updateWithoutId.
Definition updateUserAvatar := updateUserAvatar Sample.upload updateWithoutId.
Definition updateUserCoverImage := updateUserCoverImage Sample.upload updateWithoutId.

End SampleProfile.

(** ** Running the handlers on the samples *)

Example trim_ex1 : JS.trim "  a b  " = "a b".
Proof. reflexivity. Qed.

Example trim_ex2 : JS.trim "   " = "".
Proof. reflexivity. Qed.

Example toLowerCase_ex : JS.toLowerCase "Ab1" = "ab1".
Proof. reflexivity. Qed.

Example excluded_ex : excluded "-password -refreshToken" = ["password"; "refreshToken"].
Proof. reflexivity. Qed.

(** The registration scenario of the specification: 201, the username in
    the body, no password in the body. *)
Example register_scenario :
  exists body w',
    Sample.registerUser Sample.register_ab1 Sample.empty =
    (inr (mkResponse 201 [] []
            (mkApiResponse 200 (VObj body) "User registered Successfully!!!")), w')
    /\ lookup "username" body = Some (VStr "ab1")
    /\ lookup "password" body = None.
Proof.
  do 2 eexists; split; [lazy; reflexivity|split; reflexivity].
Qed.

(** The login scenario of the specification: a wrong password gives a 401
    and the stored accounts stay as they were. *)
Example login_wrong_password :
  exists w',
    Sample.loginUser
      (Sample.request (Body.mk None (Some "a@b.com") (Some "ab1") (Some "wrong") None) None)
      Sample.world = (inl (ApiError 401 "Password invalid"), w')
    /\ docs w' = docs Sample.world.
Proof.
  eexists; split; [lazy; reflexivity|reflexivity].
Qed.

(** ** Properties of the helpers *)

Lemma trimsToEmpty_isBlank (field : option string) :
  JS.trimsToEmpty field = true <-> isBlank field.
Proof.
  unfold isBlank; destruct field as [s|]; simpl; split.
  - intros H; apply String.eqb_eq in H; eauto.
  - intros (s' & E & H); injection E as <-; now apply String.eqb_eq.
  - discriminate.
  - intros (s' & E & _); discriminate.
Qed.

Lemma someFieldBlank_spec (b : Body.t) :
  someFieldBlank b = true <->
  exists field, In field (requiredFields b) /\ isBlank field.
Proof.
  unfold someFieldBlank; rewrite existsb_exists.
  split; intros (f & Hin & H); exists f; split; trivial;
    now apply trimsToEmpty_isBlank.
Qed.

Lemma matchesEither_spec (u e : option string) (d : Doc.t) :
  matchesEither u e d = true <->
  u = Some (Doc.username d) \/ e = Some (Doc.email d).
Proof.
  unfold matchesEither; rewrite orb_true_iff.
  destruct u as [u|], e as [e|]; rewrite ?String.eqb_eq;
    intuition (try discriminate; try congruence).
Qed.

Lemma find_alreadyStored (b : Body.t) (w : World) :
  alreadyStored b w ->
  exists d, find (matchesEither (Body.username b) (Body.email b)) (docs w) = Some d.
Proof.
  intros (d & Hin & H).
  destruct (find _ (docs w)) as [d'|] eqn:E; eauto.
  apply (find_none _ _ E) in Hin.
  apply matchesEither_spec in H; congruence.
Qed.

Lemma find_notStored (b : Body.t) (w : World) :
  notStored b w ->
  find (matchesEither (Body.username b) (Body.email b)) (docs w) = None.
Proof.
  intros H.
  destruct (find _ (docs w)) as [d|] eqn:E; trivial.
  apply find_some in E as [Hin E].
  apply matchesEither_spec in E.
  destruct (H d Hin); tauto.
Qed.

(** The excluded fields are not keys of the selected object. *)
Lemma lookup_filter_excluded (k : string) (ex : list string) (o : list (string * value)) :
  In k ex ->
  lookup k (filter (fun kv => negb (existsb (String.eqb (fst kv)) ex)) o) = None.
Proof.
  intros Hin; induction o as [|[k' v] o IH]; simpl; trivial.
  destruct (existsb (String.eqb k') ex) eqn:E; simpl; trivial.
  destruct (String.eqb k k') eqn:Ek; trivial.
  apply String.eqb_eq in Ek; subst k'.
  assert (existsb (String.eqb k) ex = true) as E'
    by (apply existsb_exists; exists k; split; trivial; apply String.eqb_refl).
  congruence.
Qed.

Lemma select_omits (projection k : string) (found : option Doc.t) :
  In k (excluded projection) ->
  hasField k (select projection found) = false.
Proof.
  intros Hin; destruct found as [d|]; trivial.
  unfold select, hasField; now rewrite lookup_filter_excluded.
Qed.

(** ** Properties of [registerUser] *)

#[local] Ltac run :=
  unfold bind, ret, throw, lift, tryCatch, User_findOne, User_findById,
    uploadOnCloudinary, user_save, User_findByIdAndUpdate_unset, logged; cbn.

Section RegisterUser.

Variable hashPassword : string -> string.
Variable upload : option string -> option Upload.

(** The validation comes first: with a blank field nothing else runs. *)
Lemma registerUser_blank (req : Request) (w : World) :
  someFieldBlank (body req) = true ->
  registerUser hashPassword upload req w =
  (inl (ApiError 400 "All fields are required"), w).
Proof.
  intros H; unfold registerUser; now rewrite H.
Qed.

(** Past the validation the first thing the handler does is the lookup. *)
Lemma registerUser_lookup (req : Request) (w : World) :
  someFieldBlank (body req) = false ->
  exists rest,
    calls (snd (registerUser hashPassword upload req w)) =
    calls w ++ FindOne (Body.username (body req)) (Body.email (body req)) :: rest.
Proof.
  intros H; unfold registerUser; rewrite H; run.
  destruct (find _ (docs w)); cbn; [now eexists|].
  destruct (avatarPath (files req)) as [e|p]; cbn; [now eexists|].
  destruct (JS.truthy p); cbn; [|now eexists].
  destruct (upload p); cbn; [|rewrite <- !app_assoc; now eexists].
  destruct (Body.username (body req)); cbn; [|rewrite <- !app_assoc; now eexists].
  unfold User_create; cbn.
  destruct (Body.fullName (body req)), (Body.email (body req)),
    (Body.password (body req)); cbn;
    try (rewrite <- !app_assoc; now eexists).
  destruct (existsb _ (docs w)); cbn; [rewrite <- !app_assoc; now eexists|].
  destruct (find _ _); cbn; rewrite <- !app_assoc; now eexists.
Qed.

(** An account with the username or the email of the request stops the
    handler at the lookup. *)
Lemma registerUser_existing (req : Request) (w : World) (d : Doc.t) :
  someFieldBlank (body req) = false ->
  find (matchesEither (Body.username (body req)) (Body.email (body req))) (docs w) = Some d ->
  registerUser hashPassword upload req w =
  (inl (ApiError 409 "User with email or username already exists"),
   logged (FindOne (Body.username (body req)) (Body.email (body req))) w).
Proof.
  intros H E; unfold registerUser; rewrite H; run; now rewrite E.
Qed.

(** No usable avatar path stops the handler before any upload. *)
Lemma registerUser_no_avatar (req : Request) (w : World) (p : option string) :
  someFieldBlank (body req) = false ->
  find (matchesEither (Body.username (body req)) (Body.email (body req))) (docs w) = None ->
  avatarPath (files req) = inr p ->
  JS.truthy p = false ->
  registerUser hashPassword upload req w =
  (inl (ApiError 400 "Avatar file is required"),
   logged (FindOne (Body.username (body req)) (Body.email (body req))) w).
Proof.
  intros H E Ep Ht; unfold registerUser; rewrite H; run.
  now rewrite E, Ep; cbn; rewrite Ht.
Qed.

(** With a free username and email, an avatar that uploads and a username,
    the handler reaches [User.create]; if the store rejects the write the
    handler throws the store's error. *)
Lemma registerUser_create_fails (req : Request) (w w' : World) (p : option string)
      (avatar : Upload) (username : string) (e : exn) :
  someFieldBlank (body req) = false ->
  find (matchesEither (Body.username (body req)) (Body.email (body req))) (docs w) = None ->
  avatarPath (files req) = inr p ->
  JS.truthy p = true ->
  upload p = Some avatar ->
  Body.username (body req) = Some username ->
  User_create hashPassword (createFields upload req avatar username)
    (beforeCreate req p w) = (inl e, w') ->
  registerUser hashPassword upload req w = (inl e, w').
Proof.
  intros H E Ep Ht Eu En Ec; unfold registerUser; rewrite H; run.
  rewrite E, Ep; cbn; rewrite Ht; cbn; rewrite Eu, En; cbn.
  unfold createFields, beforeCreate in Ec; rewrite En in Ec.
  rewrite <- !app_assoc; cbn.
  now rewrite Ec.
Qed.

(** Every stored identifier is below the next fresh one. *)
Lemma freshId_above (ds : list Doc.t) (d : Doc.t) :
  In d ds -> Doc._id d < freshId ds.
Proof.
  unfold freshId; induction ds as [|a ds IH]; cbn; [contradiction|].
  intros [->|Hin].
  - apply Nat.lt_succ_r, Nat.le_max_l.
  - apply Nat.lt_le_trans with (1 := IH Hin).
    apply le_n_S, Nat.le_max_r.
Qed.

(** The account found by the fresh identifier, once an account with this
    identifier has been appended, is the appended one. *)
Lemma find_created (ds : list Doc.t) (d : Doc.t) :
  Doc._id d = freshId ds ->
  find (fun x => Doc._id x =? freshId ds) (ds ++ [d]) = Some d.
Proof.
  intros Hd.
  assert (forall l, (forall x, In x l -> Doc._id x <> freshId ds) ->
            find (fun x => Doc._id x =? freshId ds) (l ++ [d]) = Some d) as H.
  { induction l as [|a l IH]; cbn; intros Hl.
    - now rewrite Hd, Nat.eqb_refl.
    - assert ((Doc._id a =? freshId ds) = false) as ->
        by (apply Nat.eqb_neq; apply Hl; now left).
      apply IH; intros x Hx; apply Hl; now right. }
  apply H; intros x Hx; apply Nat.lt_neq; now apply freshId_above.
Qed.

(** When the handler responds, it has appended one account to the store,
    the created one: a fresh identifier, the submitted username in lower
    case, the submitted email, no refresh token; and the body is the
    projection of this account. *)
Lemma registerUser_responds (req : Request) (w w' : World) (resp : Response) :
  registerUser hashPassword upload req w = (inr resp, w') ->
  exists d username,
    docs w' = docs w ++ [d]
    /\ Doc._id d = freshId (docs w)
    /\ Body.username (body req) = Some username
    /\ Doc.username d = JS.toLowerCase username
    /\ Body.email (body req) = Some (Doc.email d)
    /\ Doc.refreshToken d = None
    /\ status resp = 201
    /\ json resp = mkApiResponse 200 (select "-password -refreshToken" (Some d))
                     "User registered Successfully!!!".
Proof.
  unfold registerUser.
  destruct (someFieldBlank (body req)); [discriminate|]; run.
  destruct (find _ (docs w)); [discriminate|]; cbn.
  destruct (avatarPath (files req)) as [e|p]; [discriminate|]; cbn.
  destruct (JS.truthy p); [|discriminate]; cbn.
  destruct (upload p); [|discriminate]; cbn.
  destruct (Body.username (body req)) as [name|]; [|discriminate]; cbn.
  unfold User_create; cbn.
  destruct (Body.fullName (body req)), (Body.email (body req)),
    (Body.password (body req)); cbn; try discriminate.
  destruct (existsb _ (docs w)); [discriminate|]; cbn.
  rewrite find_created by reflexivity.
  intros [= <- <-]; cbn.
  do 2 eexists; repeat (split; [reflexivity|]); reflexivity.
Qed.

(** Past the validation no path throws the validation's error. *)
Lemma registerUser_other_errors (req : Request) (w : World) :
  someFieldBlank (body req) = false ->
  fst (registerUser hashPassword upload req w) <>
  inl (ApiError 400 "All fields are required").
Proof.
  intros H; unfold registerUser; rewrite H; run.
  destruct (find _ (docs w)); [discriminate|]; cbn.
  destruct (avatarPath (files req)) as [e|p] eqn:Ep; cbn.
  { destruct (files req) as [fs|]; [|discriminate]; cbn in *.
    destruct (Files.avatar fs) as [[|f l]|]; congruence. }
  destruct (JS.truthy p); [|discriminate]; cbn.
  destruct (upload p); [|discriminate]; cbn.
  destruct (Body.username (body req)); [|discriminate]; cbn.
  unfold User_create; cbn.
  destruct (Body.fullName (body req)), (Body.email (body req)),
    (Body.password (body req)); cbn; try discriminate.
  destruct (existsb _ (docs w)); [discriminate|]; cbn.
  destruct (find _ (docs w ++ _)); discriminate.
Qed.

Lemma someFieldBlank_false (b : Body.t) :
  (forall field, In field (requiredFields b) -> ~ isBlank field) ->
  someFieldBlank b = false.
Proof.
  intros H; destruct (someFieldBlank b) eqn:E; trivial.
  apply someFieldBlank_spec in E as (f & Hin & Hb); now destruct (H f Hin).
Qed.

(** The store refuses an account whose username is taken, whatever else the
    fields are. *)
Lemma User_create_taken (fields : NewUser.t) (w : World) (d : Doc.t) :
  In d (docs w) ->
  Doc.username d = NewUser.username fields ->
  exists name message,
    User_create hashPassword fields w =
    (inl (LibraryError name message), logged (Create fields) w).
Proof.
  intros Hin Hu; unfold User_create.
  destruct (NewUser.fullName fields), (NewUser.email fields) as [e|],
    (NewUser.password fields); try (now do 2 eexists).
  assert (existsb (matchesEither (Some (NewUser.username fields)) (Some e)) (docs w) = true)
    as -> by (apply existsb_exists; exists d; split; trivial;
              apply matchesEither_spec; left; congruence).
  now do 2 eexists.
Qed.

(** C5.  A registration request in which a required field ([fullName],
    [email], [username] or [password]) is blank, that is present and
    trimming to the empty string, is rejected with the 400 of the
    validation, and the world is left as it was: no account is created and
    no collaborator is called. *)
Theorem registerUser_blank_field_rejected (req : Request) (w : World)
    (field : option string) :
  In field (requiredFields (body req)) ->
  isBlank field ->
  registerUser hashPassword upload req w =
  (inl (ApiError 400 "All fields are required"), w).
Proof.
  intros Hin Hb; apply registerUser_blank, someFieldBlank_spec; eauto.
Qed.

(** C9.  The 400 "All fields are required" is thrown exactly when some
    provided field trims to the empty string; a request whose required
    fields are each absent or not blank, absent fields included, passes the
    validation, and the next thing the handler does is the duplicate lookup
    with the username and email as submitted. *)
Theorem registerUser_validation_iff (req : Request) (w : World) :
  (fst (registerUser hashPassword upload req w) =
     inl (ApiError 400 "All fields are required")
   <-> exists field, In field (requiredFields (body req)) /\ isBlank field)
  /\
  ((forall field, In field (requiredFields (body req)) ->
      field = None \/ ~ isBlank field) ->
   exists rest,
     calls (snd (registerUser hashPassword upload req w)) =
     calls w ++ FindOne (Body.username (body req)) (Body.email (body req)) :: rest).
Proof.
  split.
  - rewrite <- someFieldBlank_spec; split.
    + intros H; destruct (someFieldBlank (body req)) eqn:E; trivial.
      now apply registerUser_other_errors with (w := w) in E.
    + intros H; now rewrite registerUser_blank.
  - intros H; apply registerUser_lookup, someFieldBlank_false.
    intros f Hin (s & -> & Hs).
    destruct (H _ Hin) as [?|Hn]; [discriminate|].
    apply Hn; now exists s.
Qed.

(** C6, amended.  A registration request whose username or email is that of
    a stored account never adds an account; it is rejected with the 409
    unless a required field is blank, in which case the validation has
    already rejected it with the 400. *)
Theorem registerUser_duplicate_rejected (req : Request) (w : World) :
  alreadyStored (body req) w ->
  docs (snd (registerUser hashPassword upload req w)) = docs w
  /\ ((forall field, In field (requiredFields (body req)) -> ~ isBlank field) ->
      fst (registerUser hashPassword upload req w) =
      inl (ApiError 409 "User with email or username already exists"))
  /\ ((exists field, In field (requiredFields (body req)) /\ isBlank field) ->
      fst (registerUser hashPassword upload req w) =
      inl (ApiError 400 "All fields are required")).
Proof.
  intros Hs; apply find_alreadyStored in Hs as [d E].
  destruct (someFieldBlank (body req)) eqn:Eb.
  - rewrite registerUser_blank by trivial; repeat split; trivial.
    intros H; apply someFieldBlank_false in H; congruence.
  - rewrite (registerUser_existing _ _ Eb E); repeat split; trivial.
    intros H; apply someFieldBlank_spec in H; congruence.
Qed.

Lemma noAvatarFile_path (fs : option Files.t) :
  noAvatarFile fs ->
  exists p, avatarPath fs = inr p /\ JS.truthy p = false.
Proof.
  intros [->|(f & -> & [E|(first & others & E & Ht)])]; cbn.
  - now exists None.
  - rewrite E; now exists None.
  - rewrite E; now exists (path first).
Qed.

(** C7, amended.  A registration request with no usable avatar file (no
    [req.files], an empty avatar list, or a first avatar file without a
    path) never adds an account.  It is rejected with a 400 when no stored
    account has its username or email, and with the 409 of the duplicate
    check, which comes first, when one has and no required field is
    blank. *)
Theorem registerUser_no_avatar_rejected (req : Request) (w : World) :
  noAvatarFile (files req) ->
  docs (snd (registerUser hashPassword upload req w)) = docs w
  /\ (notStored (body req) w ->
      rejectsWith 400 (registerUser hashPassword upload req w))
  /\ (alreadyStored (body req) w ->
      (forall field, In field (requiredFields (body req)) -> ~ isBlank field) ->
      rejectsWith 409 (registerUser hashPassword upload req w)).
Proof.
  intros Hf; apply noAvatarFile_path in Hf as (p & Ep & Ht).
  unfold rejectsWith.
  destruct (someFieldBlank (body req)) eqn:Eb.
  - rewrite registerUser_blank by trivial; cbn [fst snd].
    split; [reflexivity|split]; [eauto|].
    intros _ H; apply someFieldBlank_false in H; congruence.
  - destruct (find (matchesEither (Body.username (body req)) (Body.email (body req)))
                (docs w)) as [d|] eqn:E.
    + rewrite (registerUser_existing _ _ Eb E); cbn [fst snd].
      split; [reflexivity|split]; [|eauto].
      intros H; apply find_notStored in H; congruence.
    + rewrite (registerUser_no_avatar _ _ Eb E Ep Ht); cbn [fst snd].
      split; [reflexivity|split]; [eauto|].
      intros H; apply find_alreadyStored in H as [d H]; congruence.
Qed.

(** C4.  When a registration succeeds, the response has status 201 and its
    body is the representation of the created account: the one account the
    handler has appended to the store, with a fresh identifier, the
    submitted username in lower case and the submitted email.  This
    representation has no [password] field and no [refreshToken] field (it
    does have the other fields, [username] for one). *)
Theorem registerUser_response_omits_secrets (req : Request) (w w' : World)
    (resp : Response) :
  registerUser hashPassword upload req w = (inr resp, w') ->
  status resp = 201
  /\ (exists d,
        docs w' = docs w ++ [d]
        /\ Doc._id d = freshId (docs w)
        /\ option_map JS.toLowerCase (Body.username (body req)) = Some (Doc.username d)
        /\ Body.email (body req) = Some (Doc.email d)
        /\ data (json resp) = select "-password -refreshToken" (Some d))
  /\ hasField "password" (data (json resp)) = false
  /\ hasField "refreshToken" (data (json resp)) = false
  /\ hasField "username" (data (json resp)) = true.
Proof.
  intros H.
  apply registerUser_responds in H
    as (d & name & Hd & Hi & Hn & Hu & He & Ht & Hs & Hj).
  rewrite Hj; cbn [data].
  split; [exact Hs|split; [|split; [|split]]].
  - exists d; repeat (split; trivial).
    now rewrite Hn, Hu.
  - apply select_omits; cbn; auto.
  - apply select_omits; cbn; auto.
  - reflexivity.
Qed.

(** C10, amended.  The duplicate lookup takes the username as submitted and
    [User.create] gets it in lower case.  So, all stored usernames being in
    lower case, a request whose username differs from a stored one only in
    letter case, and which passes the validation, has an email that no
    stored account has and an avatar file that uploads, is not rejected
    with the 409: the handler calls [User.create] with the lower-case
    username, the store refuses the write and no account is added. *)
Theorem registerUser_username_case (req : Request) (w : World) (d : Doc.t)
    (username : string) (p : option string) (avatar : Upload) :
  usernamesLowercase w ->
  In d (docs w) ->
  Body.username (body req) = Some username ->
  username <> Doc.username d ->
  JS.toLowerCase username = Doc.username d ->
  (forall field, In field (requiredFields (body req)) -> ~ isBlank field) ->
  (forall d', In d' (docs w) -> Body.email (body req) <> Some (Doc.email d')) ->
  avatarPath (files req) = inr p ->
  JS.truthy p = true ->
  upload p = Some avatar ->
  ~ rejectsWith 409 (registerUser hashPassword upload req w)
  /\ In (Create (createFields upload req avatar username))
        (calls (snd (registerUser hashPassword upload req w)))
  /\ NewUser.username (createFields upload req avatar username) = JS.toLowerCase username
  /\ docs (snd (registerUser hashPassword upload req w)) = docs w.
Proof.
  intros Hlow Hin Hu Hne Hl Hb He Ep Ht Ea.
  apply someFieldBlank_false in Hb.
  assert (notStored (body req) w) as Hn.
  { intros d' Hin'; split; [|now apply He].
    rewrite Hu; intros E; injection E as E.
    apply Hne; pose proof (Hlow d' Hin') as L.
    rewrite <- E in L; now rewrite <- Hl, L. }
  apply find_notStored in Hn.
  destruct (@User_create_taken (createFields upload req avatar username)
              (beforeCreate req p w) d Hin (eq_sym Hl)) as (name & msg & Ec).
  rewrite (registerUser_create_fails _ _ Hb Hn Ep Ht Ea Hu Ec); cbn.
  repeat split; trivial.
  - intros (m & H); discriminate.
  - apply in_or_app; right; now left.
Qed.

(** The handler adds at most one account, and its username is the submitted
    one in lower case. *)
Lemma registerUser_docs (req : Request) (w : World) :
  docs (snd (registerUser hashPassword upload req w)) = docs w
  \/ exists d username,
       Body.username (body req) = Some username
       /\ Doc.username d = JS.toLowerCase username
       /\ docs (snd (registerUser hashPassword upload req w)) = docs w ++ [d].
Proof.
  unfold registerUser.
  destruct (someFieldBlank (body req)); [now left|]; run.
  destruct (find _ (docs w)); [now left|]; cbn.
  destruct (avatarPath (files req)) as [e|p]; [now left|]; cbn.
  destruct (JS.truthy p); [|now left]; cbn.
  destruct (upload p); [|now left]; cbn.
  destruct (Body.username (body req)) as [name|]; [|now left]; cbn.
  unfold User_create; cbn.
  destruct (Body.fullName (body req)), (Body.email (body req)),
    (Body.password (body req)); cbn; try now left.
  destruct (existsb _ (docs w)); [now left|]; cbn.
  right; destruct (find _ (docs w ++ _)); cbn; do 2 eexists;
    (split; [reflexivity|split; [|reflexivity]]); reflexivity.
Qed.

Lemma lowerChar_idempotent (c : ascii) :
  JS.lowerChar (JS.lowerChar c) = JS.lowerChar c.
Proof.
  destruct c as [[] [] [] [] [] [] [] []]; reflexivity.
Qed.

Lemma toLowerCase_idempotent (s : string) :
  JS.toLowerCase (JS.toLowerCase s) = JS.toLowerCase s.
Proof.
  induction s as [|c s IH]; cbn; [reflexivity|].
  now rewrite lowerChar_idempotent, IH.
Qed.

(** Registration keeps every stored username in lower case. *)
Lemma registerUser_keeps_lowercase (req : Request) (w : World) :
  usernamesLowercase w ->
  usernamesLowercase (snd (registerUser hashPassword upload req w)).
Proof.
  intros H; unfold usernamesLowercase.
  destruct (registerUser_docs req w) as [->|(d & u & _ & Hu & ->)]; trivial.
  intros d' [Hin|[<-|[]]]%in_app_or; [now apply H|].
  rewrite Hu; apply toLowerCase_idempotent.
Qed.

End RegisterUser.

(** ** Properties of [loginUser] *)

Section LoginUser.

Variable isPasswordCorrect : Doc.t -> option string -> exn + bool.
Variable generateAccessToken : Doc.t -> string.
Variable generateRefreshToken : Doc.t -> string.

(** The presence check of [loginUser] throws as soon as one of the two
    identifiers is missing, before any lookup. *)
Lemma loginUser_presence_check (req : Request) (w : World) :
  JS.truthy (Body.username (body req)) = false \/
  JS.truthy (Body.email (body req)) = false ->
  loginUser isPasswordCorrect generateAccessToken generateRefreshToken req w =
  (inl (ApiError 400 "username or email is required"), w).
Proof.
  intros H; unfold loginUser.
  destruct H as [-> | ->]; cbn; trivial.
  now rewrite orb_true_r.
Qed.

(** With both identifiers the handler passes the check and looks the account
    up. *)
Lemma loginUser_lookup (req : Request) (w : World) :
  JS.truthy (Body.username (body req)) = true ->
  JS.truthy (Body.email (body req)) = true ->
  exists rest,
    calls (snd (loginUser isPasswordCorrect generateAccessToken generateRefreshToken req w))
    = calls w ++ FindOne (Body.username (body req)) (Body.email (body req)) :: rest.
Proof.
  intros Hu He; unfold loginUser; rewrite Hu, He; run.
  destruct (find _ (docs w)) as [d|]; cbn; [|now eexists].
  destruct (isPasswordCorrect d _) as [e|[|]]; cbn; try now eexists.
  unfold generateAccessAndRefreshTokens; run.
  destruct (find _ (docs w)); cbn; rewrite <- ?app_assoc; now eexists.
Qed.

End LoginUser.

(** ** Properties of [logoutUser] *)

Lemma unset_In (id : nat) (ds : list Doc.t) (d : Doc.t) :
  In d (map (fun d => if Doc._id d =? id then Doc.setRefreshToken d None else d) ds) ->
  Doc._id d = id -> Doc.refreshToken d = None.
Proof.
  rewrite in_map_iff; intros (d0 & E & _) Hid.
  destruct (Doc._id d0 =? id) eqn:T; subst d; trivial.
  apply Nat.eqb_neq in T; contradiction.
Qed.

(** C8.  On a logout request of an authenticated user (the middleware has
    set [req.user]), [logoutUser] responds with status 200 and clears the
    [accessToken] and the [refreshToken] cookie; afterwards every stored
    account with the acting user's identifier has no refresh token: the
    acting account is still stored, with the token field removed, and the
    other accounts are as they were. *)
Theorem logoutUser_clears_refreshToken (req : Request) (w : World) (actor : Doc.t) :
  user req = Some actor ->
  exists resp w',
    logoutUser req w = (inr resp, w')
    /\ status resp = 200
    /\ clearCookie resp = [("accessToken", options); ("refreshToken", options)]
    /\ (forall d, In d (docs w') -> Doc._id d = Doc._id actor ->
          Doc.refreshToken d = None)
    /\ (forall d, In d (docs w) -> Doc._id d = Doc._id actor ->
          In (Doc.setRefreshToken d None) (docs w'))
    /\ (forall d, In d (docs w) -> Doc._id d <> Doc._id actor -> In d (docs w')).
Proof.
  intros H; unfold logoutUser; rewrite H; run.
  do 2 eexists; split; [reflexivity|]; cbn.
  split; [reflexivity|split; [reflexivity|split; [|split]]].
  - apply unset_In.
  - intros d Hin Hid; apply in_map_iff; exists d; split; trivial.
    now apply Nat.eqb_eq in Hid as ->.
  - intros d Hin Hid; apply in_map_iff; exists d; split; trivial.
    now apply Nat.eqb_neq in Hid as ->.
Qed.

(** ** Properties of [refreshAccessToken] *)

Section RefreshAccessToken.

Variable generateAccessToken : Doc.t -> string.
Variable generateRefreshToken : Doc.t -> string.
Variable jwt_verify : option string -> exn + option nat.
Variable looseEq : bool -> string -> bool.

(** The first guard throws when a token is presented: every request that
    carries a non-empty token, in the cookie or in the body, is rejected
    there, and nothing is read or written. *)
Lemma refreshAccessToken_presented (req : Request) (w : World) (token : string) :
  JS.logicalOr (cookies_refreshToken req) (Body.refreshToken (body req)) = Some token ->
  token <> "" ->
  refreshAccessToken generateAccessToken generateRefreshToken jwt_verify looseEq req w =
  (inl (ApiError 401 "Unauthorized request"), w).
Proof.
  intros E Hne; unfold refreshAccessToken; rewrite E; cbn.
  apply String.eqb_neq in Hne; now rewrite Hne.
Qed.

(** Whatever the collaborators do, a response of the handler comes from a
    request without a token, and its [refreshToken] cookie is [undefined]. *)
Lemma refreshAccessToken_responds (req : Request) (w w' : World) (resp : Response) :
  refreshAccessToken generateAccessToken generateRefreshToken jwt_verify looseEq req w =
  (inr resp, w') ->
  JS.truthy (JS.logicalOr (cookies_refreshToken req) (Body.refreshToken (body req))) = false
  /\ exists accessToken,
       cookie resp = [("accessToken", VStr accessToken, refreshOptions);
                      ("refreshToken", VUndefined, refreshOptions)].
Proof.
  unfold refreshAccessToken.
  destruct (JS.truthy (JS.logicalOr _ _)); [discriminate|]; run.
  destruct (jwt_verify _) as [e|id]; [discriminate|]; cbn.
  destruct (match id with Some n => find _ (docs w) | None => None end) as [d|];
    [|discriminate]; cbn.
  destruct (tokenCheckFails _ _ _); [discriminate|]; cbn.
  unfold generateAccessAndRefreshTokens; run.
  destruct (find _ (docs w)); cbn; [|discriminate].
  intros [= <- _]; cbn; eauto.
Qed.

(** C3.  A refresh request that presents a token which is not the refresh
    token stored on the account its payload names is rejected with a 401,
    and the world is left as it was: no token is issued and no stored
    refresh token changes. *)
Theorem refreshAccessToken_mismatch_rejected (req : Request) (w : World)
    (token : string) (id : nat) (account : Doc.t) :
  JS.logicalOr (cookies_refreshToken req) (Body.refreshToken (body req)) = Some token ->
  token <> "" ->
  jwt_verify (Some token) = inr (Some id) ->
  find (fun d => Doc._id d =? id) (docs w) = Some account ->
  Doc.refreshToken account <> Some token ->
  refreshAccessToken generateAccessToken generateRefreshToken jwt_verify looseEq req w =
  (inl (ApiError 401 "Unauthorized request"), w).
Proof.
  intros E Hne _ _ _; now apply refreshAccessToken_presented with (token := token).
Qed.

End RefreshAccessToken.

(** ** The properties on the samples *)

#[local] Ltac no_blank :=
  let f := fresh "f" in
  let H := fresh "H" in
  intros f H; cbn in H;
  repeat (destruct H as [<-|H]; [intros (? & [= <-] & ?); discriminate|]);
  contradiction.

Lemma registerUser_blank_field_rejected_witness :
  In (Some "   ") (requiredFields (body Sample.register_blank))
  /\ isBlank (Some "   ")
  /\ Sample.registerUser Sample.register_blank Sample.world =
     (inl (ApiError 400 "All fields are required"), Sample.world).
Proof.
  assert (In (Some "   ") (requiredFields (body Sample.register_blank))) as Hin
    by (cbn; auto).
  assert (isBlank (Some "   ")) as Hb by (exists "   "; split; reflexivity).
  split; [exact Hin|split; [exact Hb|]].
  exact (registerUser_blank_field_rejected Sample.hashPassword Sample.upload
           Sample.register_blank Sample.world Hin Hb).
Defined.

Lemma registerUser_validation_iff_witness :
  Body.username (body (Sample.request (Body.mk None None None None None) None)) = None
  /\ exists rest,
       calls (snd (Sample.registerUser
                     (Sample.request (Body.mk None None None None None) None)
                     Sample.world)) =
       calls Sample.world ++ FindOne None None :: rest.
Proof.
  split; [reflexivity|].
  apply (registerUser_validation_iff Sample.hashPassword Sample.upload
           (Sample.request (Body.mk None None None None None) None) Sample.world).
  intros f H; left; cbn in H.
  repeat (destruct H as [<-|H]; [reflexivity|]); contradiction.
Defined.

(** C6, as stated, fails here: the username is that of a stored account and
    the handler rejects with a 400, not with the 409. *)
Lemma registerUser_duplicate_counterexample :
  alreadyStored (body Sample.register_taken_blank) Sample.world
  /\ fst (Sample.registerUser Sample.register_taken_blank Sample.world) =
     inl (ApiError 400 "All fields are required")
  /\ ~ rejectsWith 409 (Sample.registerUser Sample.register_taken_blank Sample.world).
Proof.
  split; [|split].
  - exists Sample.ab1; split; [now left|now left].
  - reflexivity.
  - intros (m & H); discriminate H.
Qed.

Lemma registerUser_duplicate_rejected_witness :
  alreadyStored (body Sample.register_ab1) Sample.world
  /\ docs (snd (Sample.registerUser Sample.register_ab1 Sample.world)) = docs Sample.world
  /\ fst (Sample.registerUser Sample.register_ab1 Sample.world) =
     inl (ApiError 409 "User with email or username already exists").
Proof.
  assert (alreadyStored (body Sample.register_ab1) Sample.world) as Hs
    by (exists Sample.ab1; split; [now left|now left]).
  destruct (registerUser_duplicate_rejected Sample.hashPassword Sample.upload
              Sample.register_ab1 Hs) as (Hd & Hc & _).
  split; [exact Hs|split; [exact Hd|]].
  apply Hc; no_blank.
Defined.

(** C7, as stated, fails here: the request carries no file and the handler
    rejects with the 409 of the duplicate check, not with a 400. *)
Lemma registerUser_no_avatar_counterexample :
  files Sample.register_taken_no_files = None
  /\ fst (Sample.registerUser Sample.register_taken_no_files Sample.world) =
     inl (ApiError 409 "User with email or username already exists")
  /\ ~ rejectsWith 400 (Sample.registerUser Sample.register_taken_no_files Sample.world).
Proof.
  split; [reflexivity|split; [reflexivity|]].
  intros (m & H); discriminate H.
Qed.

Lemma registerUser_no_avatar_rejected_witness :
  noAvatarFile (files Sample.register_new_no_files)
  /\ notStored (body Sample.register_new_no_files) Sample.world
  /\ docs (snd (Sample.registerUser Sample.register_new_no_files Sample.world)) =
     docs Sample.world
  /\ rejectsWith 400 (Sample.registerUser Sample.register_new_no_files Sample.world).
Proof.
  assert (noAvatarFile (files Sample.register_new_no_files)) as Hf by now left.
  assert (notStored (body Sample.register_new_no_files) Sample.world) as Hn
    by (intros d [<-|[]]; split; discriminate).
  destruct (registerUser_no_avatar_rejected Sample.hashPassword Sample.upload
              Sample.register_new_no_files Sample.world Hf) as (Hd & Hr & _).
  split; [exact Hf|split; [exact Hn|split; [exact Hd|exact (Hr Hn)]]].
Defined.

Lemma registerUser_response_omits_secrets_witness :
  exists resp w',
    Sample.registerUser Sample.register_ab1 Sample.empty = (inr resp, w')
    /\ status resp = 201
    /\ (exists d,
          docs w' = docs Sample.empty ++ [d]
          /\ Doc._id d = freshId (docs Sample.empty)
          /\ option_map JS.toLowerCase (Body.username (body Sample.register_ab1)) =
             Some (Doc.username d)
          /\ Body.email (body Sample.register_ab1) = Some (Doc.email d)
          /\ data (json resp) = select "-password -refreshToken" (Some d))
    /\ hasField "password" (data (json resp)) = false
    /\ hasField "refreshToken" (data (json resp)) = false
    /\ hasField "username" (data (json resp)) = true.
Proof.
  do 2 eexists; split; [lazy; reflexivity|].
  exact (registerUser_response_omits_secrets Sample.hashPassword Sample.upload
           Sample.register_ab1 Sample.empty eq_refl).
Defined.

(** C10, as stated, fails here: the username differs from a stored one only
    in letter case, and the handler raises the 409 (the email is that of a
    stored account) without calling [User.create]. *)
Lemma registerUser_username_case_counterexample :
  In Sample.ab1 (docs Sample.world)
  /\ Body.username (body Sample.register_capitals_same_email) = Some "AB1"
  /\ "AB1" <> Doc.username Sample.ab1
  /\ JS.toLowerCase "AB1" = Doc.username Sample.ab1
  /\ Sample.registerUser Sample.register_capitals_same_email Sample.world =
     (inl (ApiError 409 "User with email or username already exists"),
      mkWorld (docs Sample.world) [FindOne (Some "AB1") (Some "a@b.com")]).
Proof.
  repeat split; try reflexivity; [now left|discriminate].
Qed.

Lemma registerUser_username_case_witness :
  usernamesLowercase Sample.world
  /\ JS.toLowerCase "AB1" = Doc.username Sample.ab1
  /\ ~ rejectsWith 409 (Sample.registerUser Sample.register_capitals Sample.world)
  /\ In (Create (createFields Sample.upload Sample.register_capitals
                   (mkUpload "https://media.example/tmp/a.png") "AB1"))
        (calls (snd (Sample.registerUser Sample.register_capitals Sample.world)))
  /\ docs (snd (Sample.registerUser Sample.register_capitals Sample.world)) =
     docs Sample.world.
Proof.
  assert (usernamesLowercase Sample.world) as Hl by (intros d [<-|[]]; reflexivity).
  assert (In Sample.ab1 (docs Sample.world)) as Hin by now left.
  assert ("AB1" <> Doc.username Sample.ab1) as Hne by discriminate.
  assert (forall field, In field (requiredFields (body Sample.register_capitals)) ->
                        ~ isBlank field) as Hb by no_blank.
  assert (forall d', In d' (docs Sample.world) ->
                     Body.email (body Sample.register_capitals) <> Some (Doc.email d'))
    as He by (intros d [<-|[]]; discriminate).
  destruct (@registerUser_username_case Sample.hashPassword Sample.upload
              Sample.register_capitals Sample.world Sample.ab1 "AB1"
              (Some "tmp/a.png") (mkUpload "https://media.example/tmp/a.png")
              Hl Hin eq_refl Hne eq_refl Hb He eq_refl eq_refl eq_refl)
    as (Hc & Hcall & _ & Hd).
  split; [exact Hl|split; [reflexivity|split; [exact Hc|split; [exact Hcall|exact Hd]]]].
Defined.

Lemma logoutUser_clears_refreshToken_witness :
  user Sample.logout_ab1 = Some Sample.ab1
  /\ exists resp w',
       logoutUser Sample.logout_ab1 Sample.world = (inr resp, w')
       /\ status resp = 200
       /\ clearCookie resp = [("accessToken", options); ("refreshToken", options)]
       /\ (forall d, In d (docs w') -> Doc._id d = Doc._id Sample.ab1 ->
             Doc.refreshToken d = None)
       /\ (forall d, In d (docs Sample.world) -> Doc._id d = Doc._id Sample.ab1 ->
             In (Doc.setRefreshToken d None) (docs w'))
       /\ (forall d, In d (docs Sample.world) -> Doc._id d <> Doc._id Sample.ab1 ->
             In d (docs w')).
Proof.
  split; [reflexivity|].
  exact (logoutUser_clears_refreshToken Sample.logout_ab1 Sample.world eq_refl).
Defined.

Lemma refreshAccessToken_mismatch_rejected_witness :
  JS.logicalOr (cookies_refreshToken Sample.refresh_stale)
    (Body.refreshToken (body Sample.refresh_stale)) = Some "refresh.old.ab1"
  /\ Sample.jwt_verify (Some "refresh.old.ab1") = inr (Some 1)
  /\ find (fun d => Doc._id d =? 1) (docs Sample.world) = Some Sample.ab1
  /\ Doc.refreshToken Sample.ab1 <> Some "refresh.old.ab1"
  /\ Sample.refreshAccessToken Sample.refresh_stale Sample.world =
     (inl (ApiError 401 "Unauthorized request"), Sample.world).
Proof.
  assert ("refresh.old.ab1" <> "") as Hne by discriminate.
  assert (Doc.refreshToken Sample.ab1 <> Some "refresh.old.ab1") as Hm by discriminate.
  split; [reflexivity|split; [reflexivity|split; [reflexivity|split; [exact Hm|]]]].
  exact (@refreshAccessToken_mismatch_rejected Sample.generateAccessToken
           Sample.generateRefreshToken Sample.jwt_verify Sample.looseEq
           Sample.refresh_stale Sample.world "refresh.old.ab1" 1 Sample.ab1
           eq_refl Hne eq_refl eq_refl Hm).
Defined.

(** C1, the code at a request the claim covers.  The cookie carries the
    refresh token that is stored on the account, and the verifier accepts
    it; the handler throws the 401 of its first guard, which tests
    [incomingRefreshToken] where its absence was meant, and the stored token
    stays: no pair is issued, nothing is persisted, no cookie is set. *)
Theorem refreshAccessToken_current_token_rejected :
  cookies_refreshToken Sample.refresh_current = Doc.refreshToken Sample.ab1
  /\ Sample.jwt_verify (cookies_refreshToken Sample.refresh_current) = inr (Some 1)
  /\ find (fun d => Doc._id d =? 1) (docs Sample.world) = Some Sample.ab1
  /\ Sample.refreshAccessToken Sample.refresh_current Sample.world =
     (inl (ApiError 401 "Unauthorized request"), Sample.world).
Proof.
  repeat split; reflexivity.
Qed.

(** C2, the code at a request the claim covers.  The login carries the
    username and the right password and no email; the handler throws the
    400 of the presence check, which is a disjunction of the two negations,
    before any lookup.  The same login with the email added succeeds. *)
Theorem loginUser_username_only_rejected :
  JS.truthy (Body.username (body Sample.login_username_only)) = true
  /\ Sample.loginUser Sample.login_username_only Sample.world =
     (inl (ApiError 400 "username or email is required"), Sample.world)
  /\ exists resp w',
       Sample.loginUser Sample.login_both Sample.world = (inr resp, w')
       /\ status resp = 200.
Proof.
  split; [reflexivity|split; [reflexivity|]].
  do 2 eexists; split; [lazy; reflexivity|reflexivity].
Qed.

(** ** Further properties: the store *)

Unset Implicit Arguments.

Lemma updateById_ids (n : nat) (f : Doc.t -> Doc.t) (ds : list Doc.t) :
  (forall d, Doc._id (f d) = Doc._id d) ->
  map Doc._id (updateById n f ds) = map Doc._id ds.
Proof.
  intros Hf; unfold updateById; rewrite map_map; apply map_ext.
  intros d; now destruct (Doc._id d =? n).
Qed.

Lemma find_updateById (n : nat) (f : Doc.t -> Doc.t) (ds : list Doc.t) :
  (forall d, Doc._id d = n -> Doc._id (f d) = n) ->
  find (fun d => Doc._id d =? n) (updateById n f ds) =
  option_map f (find (fun d => Doc._id d =? n) ds).
Proof.
  intros Hf; unfold updateById.
  induction ds as [|d ds IH]; cbn; trivial.
  destruct (Doc._id d =? n) eqn:E; cbn.
  - apply Nat.eqb_eq in E; now rewrite (Hf d E), Nat.eqb_refl.
  - now rewrite E.
Qed.

Lemma find_updateById_other (m n : nat) (f : Doc.t -> Doc.t) (ds : list Doc.t) :
  (forall d, Doc._id (f d) = Doc._id d) ->
  m <> n ->
  find (fun d => Doc._id d =? m) (updateById n f ds) =
  find (fun d => Doc._id d =? m) ds.
Proof.
  intros Hf Hne; unfold updateById.
  induction ds as [|d ds IH]; cbn; trivial.
  rewrite IH; destruct (Doc._id d =? n) eqn:E; trivial.
  rewrite Hf.
  apply Nat.eqb_eq in E; subst n.
  apply Nat.eqb_neq in Hne; rewrite Nat.eqb_sym in Hne; now rewrite Hne.
Qed.

(** With unique identifiers the account found by an identifier is the only
    one that has it. *)
Lemma find_id_only (n : nat) (ds : list Doc.t) (u d : Doc.t) :
  NoDup (map Doc._id ds) ->
  find (fun d => Doc._id d =? n) ds = Some u ->
  In d ds -> Doc._id d = n -> d = u.
Proof.
  induction ds as [|a ds IH]; cbn; [discriminate|].
  intros Hnd Hf Hin Hid; inversion_clear Hnd as [|? ? Hnot Hnd'].
  destruct (Doc._id a =? n) eqn:E.
  - injection Hf as <-. destruct Hin as [->|Hin]; trivial.
    apply Nat.eqb_eq in E. exfalso; apply Hnot.
    rewrite E, <- Hid; now apply in_map.
  - destruct Hin as [<-|Hin]; [|now apply IH].
    apply Nat.eqb_neq in E; contradiction.
Qed.

Lemma find_id_In (ds : list Doc.t) (d : Doc.t) :
  NoDup (map Doc._id ds) -> In d ds ->
  find (fun x => Doc._id x =? Doc._id d) ds = Some d.
Proof.
  intros Hnd Hin.
  destruct (find (fun x => Doc._id x =? Doc._id d) ds) as [u|] eqn:E.
  - f_equal; symmetry; now apply (find_id_only _ _ _ _ Hnd E).
  - apply (find_none _ _ E) in Hin; now rewrite Nat.eqb_refl in Hin.
Qed.

(** With unique identifiers, replacing the account found by an identifier is
    changing the accounts that have it. *)
Lemma updateById_found (n : nat) (f : Doc.t -> Doc.t) (ds : list Doc.t) (u : Doc.t) :
  NoDup (map Doc._id ds) ->
  find (fun d => Doc._id d =? n) ds = Some u ->
  updateById n (fun _ => f u) ds = updateById n f ds.
Proof.
  intros Hnd Hf; unfold updateById; apply map_ext_in; intros d Hin.
  destruct (Doc._id d =? n) eqn:E; trivial.
  apply Nat.eqb_eq in E; now rewrite (find_id_only _ _ _ _ Hnd Hf Hin E).
Qed.

Lemma updateById_missing (n : nat) (f : Doc.t -> Doc.t) (ds : list Doc.t) :
  find (fun d => Doc._id d =? n) ds = None ->
  updateById n f ds = ds.
Proof.
  intros Hf; unfold updateById; rewrite <- (map_id ds) at 2.
  apply map_ext_in; intros d Hin.
  now rewrite (find_none _ _ Hf d Hin).
Qed.

Lemma freshId_fresh (ds : list Doc.t) (d : Doc.t) :
  In d ds -> Doc._id d < freshId ds.
Proof.
  unfold freshId; induction ds as [|a ds IH]; cbn; [contradiction|].
  intros [->|Hin].
  - apply Nat.lt_succ_r, Nat.le_max_l.
  - apply Nat.lt_le_trans with (1 := IH Hin).
    apply le_n_S, Nat.le_max_r.
Qed.

Lemma NoDup_snoc {A} (l : list A) (a : A) :
  NoDup l -> ~ In a l -> NoDup (l ++ [a]).
Proof.
  induction l as [|b l IH]; cbn; intros Hnd Hnot.
  - constructor; [tauto|constructor].
  - inversion_clear Hnd as [|? ? Hb Hl]; constructor.
    + rewrite in_app_iff; cbn; intuition congruence.
    + apply IH; tauto.
Qed.

(** ** Further properties: tokens, login and logout *)

Lemma withoutTokens_updateById (n : nat) (f : Doc.t -> Doc.t) (ds : list Doc.t) :
  (forall d, Doc.setRefreshToken (f d) None = Doc.setRefreshToken d None) ->
  map (fun d => Doc.setRefreshToken d None) (updateById n f ds) =
  map (fun d => Doc.setRefreshToken d None) ds.
Proof.
  intros Hf; unfold updateById; rewrite map_map; apply map_ext.
  intros d; now destruct (Doc._id d =? n).
Qed.

Section Sessions.

Variable isPasswordCorrect : Doc.t -> option string -> exn + bool.
Variable generateAccessToken : Doc.t -> string.
Variable generateRefreshToken : Doc.t -> string.

Lemma generateTokens_found (id : nat) (w : World) (u : Doc.t) :
  account id w = Some u ->
  generateAccessAndRefreshTokens generateAccessToken generateRefreshToken id w =
  (inr (generateAccessToken u, generateRefreshToken u),
   mkWorld (updateById id (fun _ => issued generateRefreshToken u) (docs w))
           (calls w ++ [FindById (Some id); Save (issued generateRefreshToken u)])).
Proof.
  unfold account; intros H.
  assert (Doc._id u = id) as Hid
    by (apply find_some in H as [_ H]; now apply Nat.eqb_eq in H).
  unfold generateAccessAndRefreshTokens; run; rewrite H; cbn.
  now rewrite Hid, <- app_assoc.
Qed.

Lemma generateTokens_missing (id : nat) (w : World) :
  account id w = None ->
  generateAccessAndRefreshTokens generateAccessToken generateRefreshToken id w =
  (inl (ApiError 500 "Something went wrong while generating refresh and access token"),
   logged (FindById (Some id)) w).
Proof.
  unfold account; intros H.
  unfold generateAccessAndRefreshTokens; run; now rewrite H.
Qed.

(** The docs after [generateAccessAndRefreshTokens], whatever it finds: the
    refresh token of the accounts with that identifier is all that may
    differ, when identifiers are unique. *)
Lemma generateTokens_frame (id : nat) (w : World) :
  NoDup (map Doc._id (docs w)) ->
  withoutTokens
    (snd (generateAccessAndRefreshTokens generateAccessToken generateRefreshToken id w)) =
  withoutTokens w.
Proof.
  intros Hnd; destruct (account id w) as [u|] eqn:E.
  - rewrite (generateTokens_found id w u E); unfold withoutTokens, issued; cbn.
    rewrite (updateById_found id (fun d => Doc.setRefreshToken d
               (Some (generateRefreshToken u))) (docs w) u Hnd E).
    now apply withoutTokens_updateById.
  - now rewrite (generateTokens_missing id w E).
Qed.

End Sessions.

Section Login.

Variable isPasswordCorrect : Doc.t -> option string -> exn + bool.
Variable generateAccessToken : Doc.t -> string.
Variable generateRefreshToken : Doc.t -> string.

(** The run of a login that gets through. *)
Lemma loginUser_run (req : Request) (w : World) (d : Doc.t) :
  JS.truthy (Body.username (body req)) = true ->
  JS.truthy (Body.email (body req)) = true ->
  find (matchesEither (Body.username (body req)) (Body.email (body req))) (docs w) = Some d ->
  isPasswordCorrect d (Body.password (body req)) = inr true ->
  NoDup (map Doc._id (docs w)) ->
  loginUser isPasswordCorrect generateAccessToken generateRefreshToken req w =
  (inr (mkResponse 200
          [("accessToken", VStr (generateAccessToken d), options);
           ("refreshToken", VStr (generateRefreshToken d), options)]
          []
          (mkApiResponse 200
             (VObj [("user", select "-password -refreshToken"
                               (Some (issued generateRefreshToken d)));
                    ("accessToken", VStr (generateAccessToken d));
                    ("refreshToken", VStr (generateRefreshToken d))])
             "User logged In Successfully")),
   mkWorld (updateById (Doc._id d) (fun _ => issued generateRefreshToken d) (docs w))
           (calls w ++ [FindOne (Body.username (body req)) (Body.email (body req));
                        FindById (Some (Doc._id d));
                        Save (issued generateRefreshToken d);
                        FindById (Some (Doc._id d))])).
Proof.
  intros Hu He Hf Hp Hnd.
  assert (In d (docs w)) as Hin by (now apply find_some in Hf).
  pose proof (find_id_In (docs w) d Hnd Hin) as Hid.
  unfold loginUser; rewrite Hu, He; cbn [negb orb].
  unfold bind at 1; unfold User_findOne at 1; rewrite Hf.
  unfold bind at 1; unfold lift at 1; rewrite Hp; cbn [negb].
  unfold bind at 1.
  rewrite (generateTokens_found generateAccessToken generateRefreshToken
             (Doc._id d)
             (logged (FindOne (Body.username (body req)) (Body.email (body req))) w)
             d Hid).
  unfold bind, User_findById, ret, logged; cbn [docs calls].
  rewrite (find_updateById (Doc._id d) (fun _ => issued generateRefreshToken d) (docs w))
    by reflexivity.
  rewrite Hid; cbn [option_map].
  now rewrite <- !app_assoc.
Qed.

(** [generateAccessAndRefreshTokens] on the identifier of a stored account
    (identifiers being unique) returns the two tokens the account's methods
    generate and stores the refresh token on that account: the account is
    then found with exactly this token, every other account is found as
    before, and nothing but refresh tokens differs in the store. *)
Theorem generateAccessAndRefreshTokens_issues (id : nat) (w : World) (u : Doc.t) :
  NoDup (map Doc._id (docs w)) ->
  account id w = Some u ->
  exists w',
    generateAccessAndRefreshTokens generateAccessToken generateRefreshToken id w =
    (inr (generateAccessToken u, generateRefreshToken u), w')
    /\ account id w' = Some (issued generateRefreshToken u)
    /\ (forall m, m <> id -> account m w' = account m w)
    /\ withoutTokens w' = withoutTokens w.
Proof.
  intros Hnd E.
  pose proof (generateTokens_frame generateAccessToken generateRefreshToken id w Hnd) as Hfr.
  rewrite (generateTokens_found generateAccessToken generateRefreshToken id w u E) in *.
  eexists; split; [reflexivity|]; cbn [snd] in Hfr.
  assert (Doc._id u = id) as Hid
    by (apply find_some in E as [_ E]; now apply Nat.eqb_eq in E).
  split; [|split; [|exact Hfr]]; unfold account; cbn [docs].
  - rewrite find_updateById by (intros; exact Hid).
    unfold account in E; now rewrite E.
  - intros m Hm; unfold issued.
    rewrite (updateById_found id (fun d => Doc.setRefreshToken d
               (Some (generateRefreshToken u))) (docs w) u Hnd E).
    now apply find_updateById_other.
Qed.

(** [generateAccessAndRefreshTokens] on an identifier that no stored account
    has throws its 500 (the type error of the method call on [null] is
    caught and relabelled) and leaves the stored accounts as they were. *)
Theorem generateAccessAndRefreshTokens_unknown_id (id : nat) (w : World) :
  account id w = None ->
  fst (generateAccessAndRefreshTokens generateAccessToken generateRefreshToken id w) =
    inl (ApiError 500 "Something went wrong while generating refresh and access token")
  /\ docs (snd (generateAccessAndRefreshTokens generateAccessToken generateRefreshToken
                  id w)) = docs w.
Proof.
  intros E.
  now rewrite (generateTokens_missing generateAccessToken generateRefreshToken id w E).
Qed.

(** A login with both identifiers whose password the account's method
    refuses is rejected with the 401, after the lookup only: no token is
    generated and no stored account changes. *)
Theorem loginUser_wrong_password (req : Request) (w : World) (d : Doc.t) :
  JS.truthy (Body.username (body req)) = true ->
  JS.truthy (Body.email (body req)) = true ->
  find (matchesEither (Body.username (body req)) (Body.email (body req))) (docs w) = Some d ->
  isPasswordCorrect d (Body.password (body req)) = inr false ->
  loginUser isPasswordCorrect generateAccessToken generateRefreshToken req w =
  (inl (ApiError 401 "Password invalid"),
   logged (FindOne (Body.username (body req)) (Body.email (body req))) w).
Proof.
  intros Hu He Hf Hp; unfold loginUser; rewrite Hu, He; run.
  now rewrite Hf; cbn; rewrite Hp.
Qed.

(** A login with both identifiers that match no stored account is rejected
    with the 404, and no stored account changes. *)
Theorem loginUser_unknown_account (req : Request) (w : World) :
  JS.truthy (Body.username (body req)) = true ->
  JS.truthy (Body.email (body req)) = true ->
  notStored (body req) w ->
  loginUser isPasswordCorrect generateAccessToken generateRefreshToken req w =
  (inl (ApiError 404 "User does not exist"),
   logged (FindOne (Body.username (body req)) (Body.email (body req))) w).
Proof.
  intros Hu He Hn; apply find_notStored in Hn.
  unfold loginUser; rewrite Hu, He; run; now rewrite Hn.
Qed.

(** A login that gets through (both identifiers, an account found, the
    password accepted; identifiers unique) answers 200, sets the two cookies
    with the [httpOnly] and [secure] options, and the refresh token of the
    cookie is the one of the body and the one now stored on the account.
    The [user] of the body has no [password] and no [refreshToken] field. *)
Theorem loginUser_success (req : Request) (w : World) (d : Doc.t) :
  JS.truthy (Body.username (body req)) = true ->
  JS.truthy (Body.email (body req)) = true ->
  find (matchesEither (Body.username (body req)) (Body.email (body req))) (docs w) = Some d ->
  isPasswordCorrect d (Body.password (body req)) = inr true ->
  NoDup (map Doc._id (docs w)) ->
  exists resp w' u,
    loginUser isPasswordCorrect generateAccessToken generateRefreshToken req w =
    (inr resp, w')
    /\ status resp = 200
    /\ cookie resp = [("accessToken", VStr (generateAccessToken d), options);
                      ("refreshToken", VStr (generateRefreshToken d), options)]
    /\ fieldOf "refreshToken" (data (json resp)) = Some (VStr (generateRefreshToken d))
    /\ Doc.refreshToken u = Some (generateRefreshToken d)
    /\ account (Doc._id d) w' = Some u
    /\ fieldOf "user" (data (json resp)) = Some (select "-password -refreshToken" (Some u))
    /\ hasField "password" (select "-password -refreshToken" (Some u)) = false
    /\ hasField "refreshToken" (select "-password -refreshToken" (Some u)) = false.
Proof.
  intros Hu He Hf Hp Hnd.
  rewrite (loginUser_run req w d Hu He Hf Hp Hnd).
  assert (In d (docs w)) as Hin by (now apply find_some in Hf).
  pose proof (find_id_In (docs w) d Hnd Hin) as Hid.
  do 3 eexists; split; [reflexivity|]; cbn [status cookie json data fieldOf lookup].
  repeat (split; [reflexivity|]).
  split; [|split; [|split; [reflexivity|split]]].
  - reflexivity.
  - unfold account; cbn [docs].
    rewrite find_updateById by reflexivity; now rewrite Hid.
  - apply select_omits; cbn; auto.
  - apply select_omits; cbn; auto.
Qed.

(** Whatever the request and whatever the password method answers, a login
    changes nothing but refresh tokens in the store (identifiers being
    unique): usernames, emails, passwords and the rest stay. *)
Theorem loginUser_frame (req : Request) (w : World) :
  NoDup (map Doc._id (docs w)) ->
  withoutTokens (snd (loginUser isPasswordCorrect generateAccessToken
                        generateRefreshToken req w)) = withoutTokens w.
Proof.
  intros Hnd; unfold loginUser.
  destruct (negb _ || negb _); [reflexivity|].
  unfold bind at 1; unfold User_findOne at 1.
  destruct (find _ (docs w)) as [d|]; [|reflexivity].
  unfold bind at 1; unfold lift at 1.
  destruct (isPasswordCorrect d _) as [e|[|]]; [reflexivity| |reflexivity].
  cbn [negb]; unfold bind at 1.
  pose proof (generateTokens_frame generateAccessToken generateRefreshToken (Doc._id d)
                (logged (FindOne (Body.username (body req)) (Body.email (body req))) w)
                Hnd) as Hfr.
  destruct (generateAccessAndRefreshTokens _ _ _ _) as [[e|[a r]] w1]; exact Hfr.
Qed.

End Login.

(** A logout changes nothing but refresh tokens in the store, and a second
    logout of the same request changes nothing at all: the handler is
    idempotent on the stored accounts. *)
Theorem logoutUser_idempotent (req : Request) (w : World) :
  withoutTokens (snd (logoutUser req w)) = withoutTokens w
  /\ docs (snd (logoutUser req (snd (logoutUser req w)))) = docs (snd (logoutUser req w)).
Proof.
  unfold logoutUser, withoutTokens.
  destruct (user req) as [actor|]; [|split; reflexivity]; run.
  split; rewrite map_map; apply map_ext; intros d;
    destruct (Doc._id d =? Doc._id actor) eqn:E; cbn; rewrite ?E; reflexivity.
Qed.

Section LoginLogout.

Variable isPasswordCorrect : Doc.t -> option string -> exn + bool.
Variable generateAccessToken : Doc.t -> string.
Variable generateRefreshToken : Doc.t -> string.

(** Login followed by the logout of the account that logged in leaves the
    store as the logout alone would have: the account has no refresh token
    and nothing else has changed. *)
Theorem loginUser_then_logoutUser (req out : Request) (w : World) (d actor : Doc.t) :
  JS.truthy (Body.username (body req)) = true ->
  JS.truthy (Body.email (body req)) = true ->
  find (matchesEither (Body.username (body req)) (Body.email (body req))) (docs w) = Some d ->
  isPasswordCorrect d (Body.password (body req)) = inr true ->
  NoDup (map Doc._id (docs w)) ->
  user out = Some actor ->
  Doc._id actor = Doc._id d ->
  docs (snd (logoutUser out
               (snd (loginUser isPasswordCorrect generateAccessToken
                       generateRefreshToken req w)))) =
  docs (snd (logoutUser out w))
  /\ account (Doc._id d)
       (snd (logoutUser out
               (snd (loginUser isPasswordCorrect generateAccessToken
                       generateRefreshToken req w)))) =
     Some (Doc.setRefreshToken d None).
Proof.
  intros Hu He Hf Hp Hnd Ho Ha.
  rewrite (loginUser_run isPasswordCorrect generateAccessToken generateRefreshToken
             req w d Hu He Hf Hp Hnd).
  assert (In d (docs w)) as Hin by (now apply find_some in Hf).
  pose proof (find_id_In (docs w) d Hnd Hin) as Hid.
  unfold logoutUser; rewrite Ho, Ha; run.
  unfold issued.
  rewrite (updateById_found (Doc._id d)
             (fun x => Doc.setRefreshToken x (Some (generateRefreshToken d)))
             (docs w) d Hnd Hid).
  assert (map (fun x => if Doc._id x =? Doc._id d then Doc.setRefreshToken x None else x)
            (updateById (Doc._id d)
               (fun x => Doc.setRefreshToken x (Some (generateRefreshToken d))) (docs w))
          = updateById (Doc._id d) (fun x => Doc.setRefreshToken x None) (docs w)) as ->.
  { unfold updateById; rewrite map_map; apply map_ext; intros x.
    destruct (Doc._id x =? Doc._id d) eqn:E; cbn; now rewrite E. }
  split; [reflexivity|].
  unfold account; cbn [docs].
  rewrite find_updateById by (intros; assumption).
  now rewrite Hid.
Qed.

End LoginLogout.

(** ** Further properties: [refreshAccessToken] *)

Section Refresh.

Variable generateAccessToken : Doc.t -> string.
Variable generateRefreshToken : Doc.t -> string.
Variable jwt_verify : option string -> exn + option nat.
Variable looseEq : bool -> string -> bool.

(** Every error of [refreshAccessToken] is a 401: whatever is thrown inside
    its [try], the 500 of the token generation included, leaves the handler
    as a 401 with the message of the error. *)
Theorem refreshAccessToken_only_401 (req : Request) (w : World) :
  rejectsWith 401
    (refreshAccessToken generateAccessToken generateRefreshToken jwt_verify looseEq req w)
  \/ exists resp,
       fst (refreshAccessToken generateAccessToken generateRefreshToken jwt_verify
              looseEq req w) = inr resp.
Proof.
  unfold rejectsWith, refreshAccessToken.
  destruct (JS.truthy (JS.logicalOr _ _)); [left; now eexists|].
  unfold tryCatch.
  destruct (bind _ _ w) as [[e|resp] w']; [left|right]; now eexists.
Qed.

(** With a verifier that throws on a missing or empty token, as the token
    library does, [refreshAccessToken] never answers: every request, with or
    without a token, valid or not, is rejected with a 401, and the stored
    accounts are never changed.  No request rotates a token. *)
Theorem refreshAccessToken_never_succeeds (req : Request) (w : World) :
  (forall token, JS.truthy token = false -> exists e, jwt_verify token = inl e) ->
  rejectsWith 401
    (refreshAccessToken generateAccessToken generateRefreshToken jwt_verify looseEq req w)
  /\ docs (snd (refreshAccessToken generateAccessToken generateRefreshToken jwt_verify
                  looseEq req w)) = docs w.
Proof.
  intros Hv; unfold rejectsWith, refreshAccessToken.
  destruct (JS.truthy (JS.logicalOr _ _)) eqn:E; [split; [now eexists|reflexivity]|].
  destruct (Hv _ E) as [e He].
  unfold tryCatch, bind, lift; rewrite He; cbn.
  split; [now eexists|reflexivity].
Qed.

End Refresh.

(** ** Further properties: [registerUser] *)

Lemma find_snoc_fresh (n : nat) (ds : list Doc.t) (x : Doc.t) :
  (forall d, In d ds -> Doc._id d <> n) ->
  Doc._id x = n ->
  find (fun d => Doc._id d =? n) (ds ++ [x]) = Some x.
Proof.
  intros Hds Hx; induction ds as [|a ds IH]; cbn.
  - now rewrite Hx, Nat.eqb_refl.
  - assert ((Doc._id a =? n) = false) as -> by (apply Nat.eqb_neq; apply Hds; now left).
    apply IH; intros d Hin; apply Hds; now right.
Qed.

Lemma find_snoc_none {A} (p : A -> bool) (l : list A) (x : A) :
  find p l = None -> p x = true -> find p (l ++ [x]) = Some x.
Proof.
  intros Hl Hx; induction l as [|a l IH]; cbn in *; [now rewrite Hx|].
  destruct (p a); [discriminate|now apply IH].
Qed.

Lemma find_existsb_false {A} (p : A -> bool) (l : list A) :
  existsb p l = false <-> find p l = None.
Proof.
  induction l as [|a l IH]; cbn; [tauto|].
  destruct (p a); cbn; [split; discriminate|exact IH].
Qed.

Lemma not_blank_truthy (field : option string) (s : string) :
  field = Some s -> ~ isBlank field -> JS.truthy field = true.
Proof.
  intros -> Hb; cbn; destruct s; [|reflexivity].
  exfalso; apply Hb; now exists "".
Qed.

Lemma find_no_match (username email : string) (ds : list Doc.t) :
  (forall d, In d ds -> Doc.username d <> username /\ Doc.email d <> email) ->
  find (matchesEither (Some username) (Some email)) ds = None.
Proof.
  intros H; destruct (find _ ds) as [d|] eqn:E; trivial.
  apply find_some in E as [Hin E]; apply matchesEither_spec in E.
  destruct (H d Hin) as [Hu He]; destruct E as [[= E]|[= E]]; congruence.
Qed.

(** The run of a registration that nothing stops. *)
Lemma registerUser_run (hashPassword : string -> string)
    (upload : option string -> option Upload) (req : Request) (w : World)
    (fullName email username password : string) (p : option string) (avatar : Upload) :
  canRegister upload req w fullName email username password p avatar ->
  registerUser hashPassword upload req w =
  (inr (mkResponse 201 [] []
          (mkApiResponse 200
             (select "-password -refreshToken"
                (Some (registeredAccount hashPassword upload req w fullName email
                         username password avatar)))
             "User registered Successfully!!!")),
   mkWorld (docs w ++ [registeredAccount hashPassword upload req w fullName email
                         username password avatar])
           (calls w ++ [FindOne (Some username) (Some email);
                        UploadOnCloudinary p;
                        UploadOnCloudinary (coverImagePath (files req));
                        Create (createFields upload req avatar username);
                        FindById (Some (freshId (docs w)))])).
Proof.
  intros (Hb & Hf & He & Hu & Hp & Hfree & Ep & Ht & Ea).
  apply someFieldBlank_false in Hb.
  assert (find (matchesEither (Some username) (Some email)) (docs w) = None) as Hfind
    by (apply find_no_match; intros d Hin; destruct (Hfree d Hin); tauto).
  assert (existsb (matchesEither (Some (JS.toLowerCase username)) (Some email)) (docs w)
          = false) as Hlow
    by (apply find_existsb_false, find_no_match; intros d Hin;
        destruct (Hfree d Hin); tauto).
  unfold registerUser, registeredAccount; rewrite Hb, Hf, He, Hu, Hp; run.
  rewrite Hfind, Ep; cbn; rewrite Ht; cbn; rewrite Ea; cbn.
  unfold User_create; cbn; rewrite Hlow; cbn.
  rewrite (find_snoc_fresh (freshId (docs w)) (docs w)); cbn.
  - unfold createFields; rewrite Hf, He, Hp.
    now rewrite <- !app_assoc.
  - intros x Hin; apply Nat.lt_neq; now apply freshId_fresh.
  - reflexivity.
Qed.

Section Registration.

Variable hashPassword : string -> string.
Variable upload : option string -> option Upload.

(** A registration that nothing stops answers 201 and stores exactly one new
    account, after the existing ones: a fresh identifier, the username in
    lower case, the email and full name as submitted, the password hashed,
    the url of the uploaded avatar, no refresh token.  The body of the
    response is this account without its password. *)
Theorem registerUser_success (req : Request) (w : World)
    (fullName email username password : string) (p : option string) (avatar : Upload) :
  canRegister upload req w fullName email username password p avatar ->
  exists resp w',
    registerUser hashPassword upload req w = (inr resp, w')
    /\ status resp = 201
    /\ docs w' = docs w ++ [registeredAccount hashPassword upload req w fullName email
                              username password avatar]
    /\ fieldOf "username" (data (json resp)) = Some (VStr (JS.toLowerCase username))
    /\ fieldOf "email" (data (json resp)) = Some (VStr email)
    /\ fieldOf "avatar" (data (json resp)) = Some (VStr (url avatar))
    /\ fieldOf "password" (data (json resp)) = None.
Proof.
  intros H.
  rewrite (registerUser_run hashPassword upload req w fullName email username
             password p avatar H).
  do 2 eexists; split; [reflexivity|].
  repeat split.
Qed.

(** A registration that succeeded cannot be repeated: the same request on
    the resulting store is rejected with the 409 and stores nothing. *)
Theorem registerUser_twice (req : Request) (w : World)
    (fullName email username password : string) (p : option string) (avatar : Upload) :
  canRegister upload req w fullName email username password p avatar ->
  fst (registerUser hashPassword upload req
         (snd (registerUser hashPassword upload req w))) =
    inl (ApiError 409 "User with email or username already exists")
  /\ docs (snd (registerUser hashPassword upload req
                  (snd (registerUser hashPassword upload req w)))) =
     docs (snd (registerUser hashPassword upload req w)).
Proof.
  intros H.
  rewrite (registerUser_run hashPassword upload req w fullName email username
             password p avatar H); cbn [snd].
  destruct H as (Hb & Hf & He & Hu & Hp & _).
  apply someFieldBlank_false in Hb.
  match goal with |- context [registerUser _ _ req ?w1] => set (w' := w1) end.
  assert (alreadyStored (body req) w') as Hs.
  { exists (registeredAccount hashPassword upload req w fullName email username
              password avatar); split.
    - apply in_or_app; right; now left.
    - right; exact He. }
  apply find_alreadyStored in Hs as [d Hd].
  now rewrite (registerUser_existing hashPassword upload req w' Hb Hd).
Qed.

(** Registration keeps identifiers, usernames and emails unique among the
    stored accounts. *)
Theorem registerUser_keeps_unique (req : Request) (w : World) :
  uniqueAccounts w ->
  uniqueAccounts (snd (registerUser hashPassword upload req w)).
Proof.
  intros (Hid & Hun & Hem); unfold registerUser.
  destruct (someFieldBlank (body req)); [now repeat split|]; run.
  destruct (find _ (docs w)); [now repeat split|]; cbn.
  destruct (avatarPath (files req)) as [e|p]; [now repeat split|]; cbn.
  destruct (JS.truthy p); [|now repeat split]; cbn.
  destruct (upload p) as [avatar|]; [|now repeat split]; cbn.
  destruct (Body.username (body req)) as [name|]; [|now repeat split]; cbn.
  unfold User_create; cbn.
  destruct (Body.fullName (body req)) as [fullName|],
    (Body.email (body req)) as [email|],
    (Body.password (body req)) as [password|]; cbn; try now repeat split.
  destruct (existsb _ (docs w)) eqn:E; [now repeat split|]; cbn.
  assert (forall d, In d (docs w) ->
            Doc.username d <> JS.toLowerCase name /\ Doc.email d <> email) as Hfree.
  { intros d Hin.
    split; intros Heq; enough (true = false) by discriminate;
      rewrite <- E; symmetry; apply existsb_exists; exists d; (split; [exact Hin|]);
      apply matchesEither_spec; [left|right]; now rewrite Heq. }
  set (d := Doc.mk (freshId (docs w)) (JS.toLowerCase name) email fullName
              (url avatar) (coverImageUrl (upload (coverImagePath (files req))))
              (hashPassword password) None).
  assert (uniqueAccounts (mkWorld (docs w ++ [d]) (calls w))) as Hall.
  { unfold uniqueAccounts; cbn [docs]; rewrite !map_app; cbn [map].
    repeat split; apply NoDup_snoc; trivial; rewrite in_map_iff; intros (x & Hx & Hin).
    - pose proof (freshId_fresh (docs w) x Hin) as Hlt; cbn in Hx.
      rewrite Hx in Hlt; now apply Nat.lt_irrefl in Hlt.
    - now destruct (Hfree x Hin).
    - now destruct (Hfree x Hin). }
  destruct (find _ (docs w ++ _)); exact Hall.
Qed.

(** Registration never changes or removes a stored account: the store after
    the handler is the store before it, followed by at most one account. *)
Theorem registerUser_only_appends (req : Request) (w : World) :
  exists added,
    docs (snd (registerUser hashPassword upload req w)) = docs w ++ added
    /\ List.length added <= 1.
Proof.
  destruct (registerUser_docs hashPassword upload req w) as [->|(d & u & _ & _ & ->)].
  - exists []; now rewrite app_nil_r; auto.
  - exists [d]; auto.
Qed.

(** When [req.files] is there but has no [avatar] entry, a registration that
    passed the validation and the duplicate lookup throws a type error, not
    the 400 of the missing avatar: index 0 is read on [undefined].  Nothing
    is uploaded and nothing is stored. *)
Theorem registerUser_files_without_avatar (req : Request) (w : World) (fs : Files.t) :
  (forall field, In field (requiredFields (body req)) -> ~ isBlank field) ->
  notStored (body req) w ->
  files req = Some fs ->
  Files.avatar fs = None ->
  registerUser hashPassword upload req w =
  (inl (TypeError "Cannot read properties of undefined (reading '0')"),
   logged (FindOne (Body.username (body req)) (Body.email (body req))) w).
Proof.
  intros Hb Hn Hf Ha.
  apply someFieldBlank_false in Hb; apply find_notStored in Hn.
  unfold registerUser; rewrite Hb; run; rewrite Hn; cbn.
  unfold avatarPath; now rewrite Hf, Ha.
Qed.

(** A registration without a username (the field is absent) that passes the
    lookup and has an avatar that uploads performs both uploads and then
    throws a type error, on [username.toLowerCase()]; no account is stored
    and [User.create] is never called. *)
Theorem registerUser_absent_username (req : Request) (w : World) (p : option string)
    (avatar : Upload) :
  Body.username (body req) = None ->
  (forall field, In field (requiredFields (body req)) -> ~ isBlank field) ->
  notStored (body req) w ->
  avatarPath (files req) = inr p ->
  JS.truthy p = true ->
  upload p = Some avatar ->
  registerUser hashPassword upload req w =
  (inl (TypeError "Cannot read properties of undefined (reading 'toLowerCase')"),
   mkWorld (docs w)
     (calls w ++ [FindOne None (Body.email (body req));
                  UploadOnCloudinary p;
                  UploadOnCloudinary (coverImagePath (files req))])).
Proof.
  intros Hu Hb Hn Ep Ht Ea.
  apply someFieldBlank_false in Hb; apply find_notStored in Hn.
  unfold registerUser; rewrite Hb; run; rewrite Hn, Ep; cbn.
  rewrite Ht; cbn; rewrite Ea, Hu; cbn.
  now rewrite <- !app_assoc.
Qed.

End Registration.

Section RegisterLogin.

Variable hashPassword : string -> string.
Variable upload : option string -> option Upload.
Variable isPasswordCorrect : Doc.t -> option string -> exn + bool.
Variable generateAccessToken : Doc.t -> string.
Variable generateRefreshToken : Doc.t -> string.

(** Who has registered can log in: when the password method agrees with the
    hash of the store, the body of a registration that succeeded, sent to
    [loginUser] on the resulting store, is answered with 200, and the new
    account then carries the refresh token that was issued. *)
Theorem registerUser_then_loginUser (req : Request) (w : World)
    (fullName email username password : string) (p : option string) (avatar : Upload) :
  canRegister upload req w fullName email username password p avatar ->
  passwordsAgree hashPassword isPasswordCorrect ->
  NoDup (map Doc._id (docs w)) ->
  exists resp w',
    loginUser isPasswordCorrect generateAccessToken generateRefreshToken req
      (snd (registerUser hashPassword upload req w)) = (inr resp, w')
    /\ status resp = 200
    /\ account (freshId (docs w)) w' =
       Some (issued generateRefreshToken
               (registeredAccount hashPassword upload req w fullName email username
                  password avatar)).
Proof.
  intros H Hagree Hnd.
  rewrite (registerUser_run hashPassword upload req w fullName email username
             password p avatar H); cbn [snd].
  destruct H as (Hb & Hf & He & Hu & Hp & Hfree & _).
  set (d := registeredAccount hashPassword upload req w fullName email username
              password avatar).
  match goal with |- context [loginUser _ _ _ req ?w1] => set (w1' := w1) end.
  assert (JS.truthy (Body.username (body req)) = true) as Tu
    by (apply (not_blank_truthy _ username Hu), Hb; cbn; auto).
  assert (JS.truthy (Body.email (body req)) = true) as Te
    by (apply (not_blank_truthy _ email He), Hb; cbn; auto).
  assert (find (matchesEither (Body.username (body req)) (Body.email (body req)))
            (docs w1') = Some d) as Hfind.
  { rewrite Hu, He; apply find_snoc_none.
    - apply find_no_match; intros x Hin; destruct (Hfree x Hin); tauto.
    - apply matchesEither_spec; now right. }
  assert (isPasswordCorrect d (Body.password (body req)) = inr true) as Hpw
    by (rewrite Hp, Hagree; cbn; now rewrite String.eqb_refl).
  assert (NoDup (map Doc._id (docs w1'))) as Hnd'.
  { cbn [docs w1']; rewrite map_app; apply NoDup_snoc; trivial.
    rewrite in_map_iff; intros (x & Hx & Hin).
    pose proof (freshId_fresh (docs w) x Hin) as Hlt.
    cbn in Hx; rewrite Hx in Hlt; now apply Nat.lt_irrefl in Hlt. }
  rewrite (loginUser_run isPasswordCorrect generateAccessToken generateRefreshToken
             req w1' d Tu Te Hfind Hpw Hnd').
  do 2 eexists; split; [reflexivity|split; [reflexivity|]].
  unfold account; cbn [docs].
  change (freshId (docs w)) with (Doc._id d).
  rewrite find_updateById by reflexivity.
  now rewrite (find_id_In _ d Hnd') by (apply in_or_app; right; now left).
Qed.

End RegisterLogin.

(** ** Further properties: the profile handlers *)

Lemma select_password_fields (d : Doc.t) :
  fieldOf "password" (select "-password" (Some d)) = None
  /\ fieldOf "refreshToken" (select "-password" (Some d)) =
     option_map VStr (Doc.refreshToken d)
  /\ fieldOf "email" (select "-password" (Some d)) = Some (VStr (Doc.email d))
  /\ fieldOf "fullName" (select "-password" (Some d)) = Some (VStr (Doc.fullName d))
  /\ fieldOf "coverImage" (select "-password" (Some d)) = Some (VStr (Doc.coverImage d)).
Proof.
  destruct d as [i u e f a c pw [t|]]; repeat split.
Qed.

Lemma emailTaken_spec (id : nat) (email : string) (ds : list Doc.t) :
  emailTaken id (Some email) ds = true <->
  exists d, In d ds /\ Doc._id d <> id /\ Doc.email d = email.
Proof.
  unfold emailTaken; rewrite existsb_exists; split; intros (d & Hin & H); exists d.
  - apply andb_true_iff in H as [Hi He].
    apply negb_true_iff, Nat.eqb_neq in Hi; apply String.eqb_eq in He; tauto.
  - split; trivial; destruct H as [Hi He].
    apply andb_true_iff; split; [now apply negb_true_iff, Nat.eqb_neq|].
    now apply String.eqb_eq.
Qed.

Lemma find_existsb_id (id : nat) (ds : list Doc.t) (u : Doc.t) :
  find (fun d => Doc._id d =? id) ds = Some u ->
  existsb (fun d => Doc._id d =? id) ds = true.
Proof.
  intros H; destruct (existsb _ ds) eqn:E; trivial.
  apply find_existsb_false in E; congruence.
Qed.

Section ProfileProperties.

Variable hashPassword : string -> string.
Variable hashUndefined : exn + string.
Variable isPasswordCorrect : Doc.t -> option string -> exn + bool.
Variable upload : option string -> option Upload.
Variable updateWithoutId : (Doc.t -> Doc.t) -> M (option Doc.t).

(** The run of a password change that gets through. *)
Lemma changeCurrentPassword_run (req : ProfileRequest) (w : World) (actor u : Doc.t)
    (password : string) :
  user (base req) = Some actor ->
  account (Doc._id actor) w = Some u ->
  isPasswordCorrect u (oldPassword req) = inr true ->
  newPassword req = Some password ->
  NoDup (map Doc._id (docs w)) ->
  changeCurrentPassword hashPassword hashUndefined isPasswordCorrect req w =
  (inr (mkResponse 200 [] [] (mkApiResponse 200 (VObj []) "Password changed successfully")),
   mkWorld (updateById (Doc._id actor) (setPassword (hashPassword password)) (docs w))
           (calls w ++ [FindById (Some (Doc._id actor));
                        Save (setPassword (hashPassword password) u)])).
Proof.
  unfold account; intros Ha Hf Hp Hn Hnd.
  assert (Doc._id u = Doc._id actor) as Hid
    by (apply find_some in Hf as [_ Hf]; now apply Nat.eqb_eq in Hf).
  unfold changeCurrentPassword, actorId; rewrite Ha, Hn; run.
  rewrite Hf; cbn; rewrite Hp; cbn.
  unfold user_savePassword, hashAssigned; cbn.
  rewrite <- (updateById_found (Doc._id actor) (setPassword (hashPassword password))
                (docs w) u Hnd Hf).
  unfold updateById; now rewrite Hid, <- app_assoc.
Qed.

(** A password change whose old password the account's method refuses is
    rejected with the 400 after the account was read: nothing is saved. *)
Theorem changeCurrentPassword_wrong_old (req : ProfileRequest) (w : World)
    (actor u : Doc.t) :
  user (base req) = Some actor ->
  account (Doc._id actor) w = Some u ->
  isPasswordCorrect u (oldPassword req) = inr false ->
  changeCurrentPassword hashPassword hashUndefined isPasswordCorrect req w =
  (inl (ApiError 400 "Invalid old password"),
   logged (FindById (Some (Doc._id actor))) w).
Proof.
  unfold account; intros Ha Hf Hp.
  unfold changeCurrentPassword, actorId; rewrite Ha; run.
  now rewrite Hf; cbn; rewrite Hp.
Qed.

(** A password change that gets through (the acting account is stored, the
    old password is accepted, a new password is given; identifiers unique)
    answers 200 and stores the hash of the new password on the acting
    account and on no other.  Everything else of the account stays, its
    refresh token included: the sessions of the account are not revoked.
    The new password is not checked in any way: an empty one is stored
    too. *)
Theorem changeCurrentPassword_success (req : ProfileRequest) (w : World)
    (actor u : Doc.t) (password : string) :
  user (base req) = Some actor ->
  account (Doc._id actor) w = Some u ->
  isPasswordCorrect u (oldPassword req) = inr true ->
  newPassword req = Some password ->
  NoDup (map Doc._id (docs w)) ->
  exists resp w',
    changeCurrentPassword hashPassword hashUndefined isPasswordCorrect req w =
    (inr resp, w')
    /\ status resp = 200
    /\ docs w' = updateById (Doc._id actor) (setPassword (hashPassword password)) (docs w)
    /\ account (Doc._id actor) w' = Some (setPassword (hashPassword password) u)
    /\ Doc.refreshToken (setPassword (hashPassword password) u) = Doc.refreshToken u
    /\ (forall m, m <> Doc._id actor -> account m w' = account m w).
Proof.
  intros Ha Hf Hp Hn Hnd.
  rewrite (changeCurrentPassword_run req w actor u password Ha Hf Hp Hn Hnd).
  do 2 eexists; split; [reflexivity|].
  split; [reflexivity|split; [reflexivity|]]; unfold account in *; cbn [docs].
  split; [|split; [reflexivity|]].
  - rewrite find_updateById by (intros; assumption); now rewrite Hf.
  - intros m Hm; now apply find_updateById_other.
Qed.

(** A password change with no acting user, or with one whose account is not
    stored, throws a type error (the password method is called on [null]),
    not an [ApiError]; nothing is saved. *)
Theorem changeCurrentPassword_no_account (req : ProfileRequest) (w : World) :
  (forall actor, user (base req) = Some actor -> account (Doc._id actor) w = None) ->
  changeCurrentPassword hashPassword hashUndefined isPasswordCorrect req w =
  (inl (TypeError "Cannot read properties of null (reading 'isPasswordCorrect')"),
   logged (FindById (actorId (base req))) w).
Proof.
  unfold account; intros H.
  unfold changeCurrentPassword, actorId; run.
  destruct (user (base req)) as [actor|]; [|reflexivity].
  now rewrite (H actor eq_refl).
Qed.

(** [updateAccountDetails] rejects with the 400 a request whose full name or
    email is missing or empty, before any call to the store. *)
Theorem updateAccountDetails_missing_field (req : ProfileRequest) (w : World) :
  JS.truthy (Body.fullName (body (base req))) = false \/
  JS.truthy (Body.email (body (base req))) = false ->
  updateAccountDetails updateWithoutId req w =
  (inl (ApiError 400 "All fields are required"), w).
Proof.
  unfold updateAccountDetails.
  intros [-> | ->]; cbn; trivial; now rewrite orb_true_r.
Qed.

(** The run of an update of the details that gets through. *)
Lemma updateAccountDetails_run (req : ProfileRequest) (w : World) (actor u : Doc.t)
    (fullName email : string) :
  user (base req) = Some actor ->
  account (Doc._id actor) w = Some u ->
  Body.fullName (body (base req)) = Some fullName ->
  Body.email (body (base req)) = Some email ->
  fullName <> "" ->
  email <> "" ->
  emailTaken (Doc._id actor) (Some email) (docs w) = false ->
  updateAccountDetails updateWithoutId req w =
  (inr (mkResponse 200 [] []
          (mkApiResponse 200
             (select "-password" (Some (setDetails (Some fullName) (Some email) u)))
             "Account details updated successfully!")),
   mkWorld (updateById (Doc._id actor) (setDetails (Some fullName) (Some email)) (docs w))
           (calls w)).
Proof.
  unfold account; intros Ha Hf Hn He Hn0 He0 Ht.
  unfold updateAccountDetails, actorId; rewrite Ha, Hn, He; cbn [JS.truthy].
  apply String.eqb_neq in Hn0, He0; rewrite Hn0, He0; cbn [negb orb].
  unfold bind, ret, User_findByIdAndUpdate_details, User_findByIdAndUpdate_set.
  rewrite Ht, andb_false_r, find_updateById by (intros ? Hx; exact Hx).
  now rewrite Hf.
Qed.

(** An update of the details that gets through (the acting account is
    stored, full name and email are given and not empty, no other account
    has the email) answers 200 and changes the full name and the email of
    the acting account and nothing else in the store.  The body of the
    response is the updated account without its password, but with its
    refresh token when it has one. *)
Theorem updateAccountDetails_success (req : ProfileRequest) (w : World)
    (actor u : Doc.t) (fullName email : string) :
  user (base req) = Some actor ->
  account (Doc._id actor) w = Some u ->
  Body.fullName (body (base req)) = Some fullName ->
  Body.email (body (base req)) = Some email ->
  fullName <> "" ->
  email <> "" ->
  (forall d, In d (docs w) -> Doc._id d <> Doc._id actor -> Doc.email d <> email) ->
  exists resp w',
    updateAccountDetails updateWithoutId req w = (inr resp, w')
    /\ status resp = 200
    /\ docs w' = updateById (Doc._id actor) (setDetails (Some fullName) (Some email))
                   (docs w)
    /\ fieldOf "fullName" (data (json resp)) = Some (VStr fullName)
    /\ fieldOf "email" (data (json resp)) = Some (VStr email)
    /\ fieldOf "password" (data (json resp)) = None
    /\ fieldOf "refreshToken" (data (json resp)) = option_map VStr (Doc.refreshToken u).
Proof.
  intros Ha Hf Hn He Hn0 He0 Hfree.
  assert (emailTaken (Doc._id actor) (Some email) (docs w) = false) as Ht.
  { destruct (emailTaken _ _ _) eqn:E; trivial.
    apply emailTaken_spec in E as (d & Hin & Hi & Hd); now destruct (Hfree d Hin Hi). }
  rewrite (updateAccountDetails_run req w actor u fullName email Ha Hf Hn He Hn0 He0 Ht).
  do 2 eexists; split; [reflexivity|]; cbn [status json data docs].
  destruct (select_password_fields (setDetails (Some fullName) (Some email) u))
    as (Hp & Hr & Hem & Hfn & _).
  repeat split; assumption.
Qed.

(** [updateAccountDetails] has no duplicate check of its own: when another
    account has the email, the rejection of the store leaves the handler as
    it is, not as a 409, and nothing is changed. *)
Theorem updateAccountDetails_email_taken (req : ProfileRequest) (w : World)
    (actor u other : Doc.t) (email : string) :
  user (base req) = Some actor ->
  account (Doc._id actor) w = Some u ->
  JS.truthy (Body.fullName (body (base req))) = true ->
  Body.email (body (base req)) = Some email ->
  email <> "" ->
  In other (docs w) ->
  Doc._id other <> Doc._id actor ->
  Doc.email other = email ->
  updateAccountDetails updateWithoutId req w =
  (inl (LibraryError "MongoServerError" "E11000 duplicate key error"), w).
Proof.
  unfold account; intros Ha Hf Hn He He0 Hin Hi Ho.
  assert (emailTaken (Doc._id actor) (Some email) (docs w) = true) as Ht
    by (apply emailTaken_spec; eauto).
  unfold updateAccountDetails, actorId; rewrite Ha, Hn, He; cbn [JS.truthy].
  apply String.eqb_neq in He0; rewrite He0; cbn [negb orb].
  unfold bind, User_findByIdAndUpdate_details.
  now rewrite Ht, (find_existsb_id _ _ _ Hf).
Qed.

(** Without a file, or with a file that has no path, both upload handlers
    reject with a 400 before any upload. *)
Theorem updateUser_missing_file (req : ProfileRequest) (w : World) :
  JS.truthy (filePath (file req)) = false ->
  updateUserAvatar upload updateWithoutId req w =
    (inl (ApiError 400 "Avatar file is missing"), w)
  /\ updateUserCoverImage upload updateWithoutId req w =
    (inl (ApiError 400 "Cover Image file is missing"), w).
Proof.
  intros H; unfold updateUserAvatar, updateUserCoverImage; now rewrite H.
Qed.

(** When the media upload fails and gives [null], both upload handlers throw
    a type error, not the 400 they have for it: [url] is read on [null].
    The stored accounts are left as they were. *)
Theorem updateUser_upload_null (req : ProfileRequest) (w : World) :
  JS.truthy (filePath (file req)) = true ->
  upload (filePath (file req)) = None ->
  updateUserAvatar upload updateWithoutId req w =
    (inl (TypeError "Cannot read properties of null (reading 'url')"),
     logged (UploadOnCloudinary (filePath (file req))) w)
  /\ updateUserCoverImage upload updateWithoutId req w =
    (inl (TypeError "Cannot read properties of null (reading 'url')"),
     logged (UploadOnCloudinary (filePath (file req))) w).
Proof.
  intros Ht Hu; unfold updateUserAvatar, updateUserCoverImage; rewrite Ht; run.
  now rewrite Hu.
Qed.

(** [updateUserAvatar] never sends a response: it throws, or it ends without
    a call on [res]. *)
Theorem updateUserAvatar_never_responds (req : ProfileRequest) (w : World) :
  fst (updateUserAvatar upload updateWithoutId req w) = inr None
  \/ exists e, fst (updateUserAvatar upload updateWithoutId req w) = inl e.
Proof.
  unfold updateUserAvatar.
  destruct (negb _); [right; now eexists|]; run.
  destruct (upload _) as [a|]; cbn; [|right; now eexists].
  destruct (String.eqb (url a) ""); [right; now eexists|].
  destruct (User_findByIdAndUpdate_set _ _ _ _) as [[e|found] w'];
    [right; now eexists|now left].
Qed.

(** An avatar update that gets through (an acting user, a file with a path,
    an upload with a url) stores the url as the avatar of the acting
    account, changes nothing else, and sends no response. *)
Theorem updateUserAvatar_success (req : ProfileRequest) (w : World) (actor : Doc.t)
    (uploaded : Upload) :
  user (base req) = Some actor ->
  JS.truthy (filePath (file req)) = true ->
  upload (filePath (file req)) = Some uploaded ->
  url uploaded <> "" ->
  updateUserAvatar upload updateWithoutId req w =
  (inr None,
   mkWorld (updateById (Doc._id actor) (setAvatar (url uploaded)) (docs w))
           (calls w ++ [UploadOnCloudinary (filePath (file req))])).
Proof.
  intros Ha Ht Hu Hn; unfold updateUserAvatar, actorId; rewrite Ha, Ht; run.
  rewrite Hu; cbn; apply String.eqb_neq in Hn; now rewrite Hn.
Qed.

(** A cover image update that gets through (the acting account is stored, a
    file with a path, an upload with a url) stores the url as the cover
    image of the acting account, changes nothing else, and answers 200 with
    the updated account without its password, but with its refresh token
    when it has one. *)
Theorem updateUserCoverImage_success (req : ProfileRequest) (w : World)
    (actor u : Doc.t) (uploaded : Upload) :
  user (base req) = Some actor ->
  account (Doc._id actor) w = Some u ->
  JS.truthy (filePath (file req)) = true ->
  upload (filePath (file req)) = Some uploaded ->
  url uploaded <> "" ->
  exists resp w',
    updateUserCoverImage upload updateWithoutId req w = (inr (Some resp), w')
    /\ status resp = 200
    /\ docs w' = updateById (Doc._id actor) (setCoverImage (url uploaded)) (docs w)
    /\ fieldOf "coverImage" (data (json resp)) = Some (VStr (url uploaded))
    /\ fieldOf "password" (data (json resp)) = None
    /\ fieldOf "refreshToken" (data (json resp)) = option_map VStr (Doc.refreshToken u).
Proof.
  unfold account; intros Ha Hf Ht Hu Hn.
  unfold updateUserCoverImage, actorId; rewrite Ha, Ht; run.
  rewrite Hu; cbn; apply String.eqb_neq in Hn; rewrite Hn; cbn [docs calls].
  rewrite find_updateById by (intros ? Hx; exact Hx); rewrite Hf; cbn [option_map].
  do 2 eexists; split; [reflexivity|]; cbn [status json data docs].
  destruct (select_password_fields (setCoverImage (url uploaded) u))
    as (Hp & Hr & _ & _ & Hc).
  repeat split; assumption.
Qed.

End ProfileProperties.

(** ** Further properties: uniqueness and the password round trip *)

Lemma NoDup_map_eq {A B} (f : A -> B) (l : list A) (a b : A) :
  NoDup (map f l) -> In a l -> In b l -> f a = f b -> a = b.
Proof.
  induction l as [|x l IH]; cbn; [contradiction|].
  intros Hnd Ha Hb E; inversion_clear Hnd as [|? ? Hx Hl].
  destruct Ha as [->|Ha], Hb as [->|Hb]; trivial.
  - exfalso; apply Hx; rewrite E; now apply in_map.
  - exfalso; apply Hx; rewrite <- E; now apply in_map.
  - now apply IH.
Qed.

(** With unique usernames and emails, the lookup by the username and the
    email of a stored account finds this account. *)
Lemma find_own_identifiers (ds : list Doc.t) (u : Doc.t) :
  NoDup (map Doc.username ds) ->
  NoDup (map Doc.email ds) ->
  In u ds ->
  find (matchesEither (Some (Doc.username u)) (Some (Doc.email u))) ds = Some u.
Proof.
  intros Hun Hem Hin.
  destruct (find _ ds) as [d|] eqn:E.
  - apply find_some in E as [Hd E]; apply matchesEither_spec in E.
    f_equal; destruct E as [[= E]|[= E]].
    + now apply (NoDup_map_eq Doc.username ds).
    + now apply (NoDup_map_eq Doc.email ds).
  - apply (find_none _ _ E) in Hin.
    assert (matchesEither (Some (Doc.username u)) (Some (Doc.email u)) u = true) as M
      by (apply matchesEither_spec; now left).
    congruence.
Qed.

Lemma find_map_stable {A} (p : A -> bool) (g : A -> A) (l : list A) :
  (forall a, p (g a) = p a) ->
  find p (map g l) = option_map g (find p l).
Proof.
  intros H; induction l as [|a l IH]; cbn; trivial.
  rewrite H; now destruct (p a).
Qed.

Section PasswordRoundTrip.

Variable hashPassword : string -> string.
Variable hashUndefined : exn + string.
Variable isPasswordCorrect : Doc.t -> option string -> exn + bool.
Variable generateAccessToken : Doc.t -> string.
Variable generateRefreshToken : Doc.t -> string.

(** The new password works: after a password change that got through, a
    login with the username and email of the account and the new password
    is answered with 200, when the password method agrees with the hash of
    the store and the stored accounts are unique. *)
Theorem changeCurrentPassword_then_loginUser (req : ProfileRequest) (login : Request)
    (w : World) (actor u : Doc.t) (password : string) :
  user (base req) = Some actor ->
  account (Doc._id actor) w = Some u ->
  isPasswordCorrect u (oldPassword req) = inr true ->
  newPassword req = Some password ->
  uniqueAccounts w ->
  passwordsAgree hashPassword isPasswordCorrect ->
  Body.username (body login) = Some (Doc.username u) ->
  Body.email (body login) = Some (Doc.email u) ->
  Body.password (body login) = Some password ->
  Doc.username u <> "" ->
  Doc.email u <> "" ->
  exists resp w',
    loginUser isPasswordCorrect generateAccessToken generateRefreshToken login
      (snd (changeCurrentPassword hashPassword hashUndefined isPasswordCorrect req w))
    = (inr resp, w')
    /\ status resp = 200
    /\ cookie resp =
       [("accessToken",
         VStr (generateAccessToken (setPassword (hashPassword password) u)), options);
        ("refreshToken",
         VStr (generateRefreshToken (setPassword (hashPassword password) u)), options)].
Proof.
  intros Ha Hf Hp Hn (Hid & Hun & Hem) Hagree Lu Le Lp Nu Ne.
  rewrite (changeCurrentPassword_run hashPassword hashUndefined isPasswordCorrect
             req w actor u password Ha Hf Hp Hn Hid); cbn [snd].
  match goal with |- context [loginUser _ _ _ login ?w1] => set (w1' := w1) end.
  set (u' := setPassword (hashPassword password) u).
  assert (In u (docs w) /\ Doc._id u = Doc._id actor) as [Hin Hu].
  { apply find_some in Hf as [Hin Hf]; now apply Nat.eqb_eq in Hf. }
  assert (JS.truthy (Body.username (body login)) = true) as Tu
    by (rewrite Lu; cbn; apply String.eqb_neq in Nu; now rewrite Nu).
  assert (JS.truthy (Body.email (body login)) = true) as Te
    by (rewrite Le; cbn; apply String.eqb_neq in Ne; now rewrite Ne).
  assert (find (matchesEither (Body.username (body login)) (Body.email (body login)))
            (docs w1') = Some u') as Hfind.
  { rewrite Lu, Le; cbn [docs w1']; unfold updateById.
    rewrite find_map_stable by (intros a; now destruct (Doc._id a =? Doc._id actor)).
    rewrite (find_own_identifiers (docs w) u Hun Hem Hin); cbn [option_map].
    apply Nat.eqb_eq in Hu; now rewrite Hu. }
  assert (isPasswordCorrect u' (Body.password (body login)) = inr true) as Hpw
    by (rewrite Lp, Hagree; cbn; now rewrite String.eqb_refl).
  assert (NoDup (map Doc._id (docs w1'))) as Hnd'
    by (cbn [docs w1']; now rewrite updateById_ids).
  rewrite (loginUser_run isPasswordCorrect generateAccessToken generateRefreshToken
             login w1' u' Tu Te Hfind Hpw Hnd').
  do 2 eexists; split; [reflexivity|split; reflexivity].
Qed.

End PasswordRoundTrip.

Lemma map_updateById {B} (g : Doc.t -> B) (n : nat) (f : Doc.t -> Doc.t) (ds : list Doc.t) :
  (forall d, g (f d) = g d) ->
  map g (updateById n f ds) = map g ds.
Proof.
  intros Hf; unfold updateById; rewrite map_map; apply map_ext.
  intros d; now destruct (Doc._id d =? n).
Qed.

Lemma find_id_absent (n : nat) (ds : list Doc.t) :
  ~ In n (map Doc._id ds) -> find (fun d => Doc._id d =? n) ds = None.
Proof.
  intros H; destruct (find _ ds) as [d|] eqn:E; trivial.
  apply find_some in E as [Hin E]; apply Nat.eqb_eq in E.
  exfalso; apply H; rewrite <- E; now apply in_map.
Qed.

(** Setting the email of one account keeps the emails unique when no other
    account has it. *)
Lemma emails_updateById (n : nat) (fullName : option string) (email : string)
    (ds : list Doc.t) :
  NoDup (map Doc._id ds) ->
  NoDup (map Doc.email ds) ->
  emailTaken n (Some email) ds = false ->
  NoDup (map Doc.email (updateById n (setDetails fullName (Some email)) ds)).
Proof.
  induction ds as [|a ds IH]; cbn; [constructor|].
  intros Hid Hem Ht.
  inversion_clear Hid as [|? ? Ha Hid']; inversion_clear Hem as [|? ? He Hem'].
  apply orb_false_iff in Ht as [Hhead Ht].
  fold (emailTaken n (Some email) ds) in Ht.
  fold (updateById n (setDetails fullName (Some email)) ds).
  assert (forall d, In d ds -> Doc._id d <> n -> Doc.email d <> email) as Hfree.
  { intros d Hin Hn E; enough (emailTaken n (Some email) ds = true) by congruence.
    apply emailTaken_spec; eauto. }
  destruct (Doc._id a =? n) eqn:E; cbn [negb andb] in Hhead; cbn.
  - apply Nat.eqb_eq in E; subst n.
    rewrite updateById_missing by now apply find_id_absent.
    constructor; trivial.
    rewrite in_map_iff; intros (d & Hd & Hin).
    apply (Hfree d Hin); trivial.
    intros Heq; apply Ha; rewrite <- Heq; now apply in_map.
  - constructor; [|now apply IH].
    apply String.eqb_neq in Hhead.
    unfold updateById; rewrite map_map, in_map_iff; intros (d & Hd & Hin).
    destruct (Doc._id d =? n); cbn in Hd; [congruence|].
    apply He; rewrite <- Hd; now apply in_map.
Qed.

(** An update of the details by an acting user keeps identifiers, usernames
    and emails unique among the stored accounts, whether it gets through or
    is rejected. *)
Theorem updateAccountDetails_keeps_unique
    (updateWithoutId : (Doc.t -> Doc.t) -> M (option Doc.t))
    (req : ProfileRequest) (w : World) (actor : Doc.t) :
  user (base req) = Some actor ->
  uniqueAccounts w ->
  uniqueAccounts (snd (updateAccountDetails updateWithoutId req w)).
Proof.
  intros Ha (Hid & Hun & Hem).
  unfold updateAccountDetails, actorId; rewrite Ha.
  destruct (negb _ || negb _) eqn:G; [now repeat split|].
  apply orb_false_iff in G as [_ G]; apply negb_false_iff in G.
  destruct (Body.email (body (base req))) as [email|]; [|discriminate].
  unfold bind, ret, User_findByIdAndUpdate_details, User_findByIdAndUpdate_set.
  destruct (existsb _ (docs w)) eqn:Ex; cbn [andb].
  - destruct (emailTaken _ _ _) eqn:Et; [now repeat split|]; cbn [snd].
    unfold uniqueAccounts; cbn [docs].
    rewrite !map_updateById by reflexivity.
    repeat split; trivial; now apply emails_updateById.
  - cbn [snd]; unfold uniqueAccounts; cbn [docs].
    apply find_existsb_false in Ex.
    rewrite updateById_missing by exact Ex; now repeat split.
Qed.

(** ** The further properties on the samples *)

Lemma sample_unique : uniqueAccounts SampleProfile.world.
Proof.
  repeat split; cbn;
    repeat (constructor; [cbn; intuition discriminate|]); constructor.
Qed.

Lemma sample_ids : NoDup (map Doc._id (docs SampleProfile.world)).
Proof. exact (proj1 sample_unique). Qed.

Lemma sample_passwordsAgree :
  passwordsAgree Sample.hashPassword Sample.isPasswordCorrect.
Proof. intros d p; reflexivity. Qed.

Lemma sample_canRegister :
  canRegister Sample.upload SampleProfile.register_ef SampleProfile.world
    "E F" "e@f.com" "Ef3" "pw-ef" (Some "tmp/a.png") SampleProfile.avatar_ef.
Proof.
  split; [no_blank|].
  repeat (split; [reflexivity|]).
  split; [|repeat split].
  intros d [<-|[<-|[]]]; repeat split; discriminate.
Qed.

Lemma generateAccessAndRefreshTokens_issues_witness :
  exists w',
    generateAccessAndRefreshTokens Sample.generateAccessToken Sample.generateRefreshToken
      1 SampleProfile.world =
    (inr (Sample.generateAccessToken Sample.ab1, Sample.generateRefreshToken Sample.ab1), w')
    /\ account 1 w' = Some (issued Sample.generateRefreshToken Sample.ab1)
    /\ (forall m, m <> 1 -> account m w' = account m SampleProfile.world)
    /\ withoutTokens w' = withoutTokens SampleProfile.world.
Proof.
  exact (generateAccessAndRefreshTokens_issues Sample.generateAccessToken
           Sample.generateRefreshToken 1 SampleProfile.world Sample.ab1
           sample_ids eq_refl).
Defined.

Lemma generateAccessAndRefreshTokens_unknown_id_witness :
  account 7 SampleProfile.world = None
  /\ fst (generateAccessAndRefreshTokens Sample.generateAccessToken
            Sample.generateRefreshToken 7 SampleProfile.world) =
     inl (ApiError 500 "Something went wrong while generating refresh and access token")
  /\ docs (snd (generateAccessAndRefreshTokens Sample.generateAccessToken
                  Sample.generateRefreshToken 7 SampleProfile.world)) =
     docs SampleProfile.world.
Proof.
  split; [reflexivity|].
  exact (generateAccessAndRefreshTokens_unknown_id Sample.generateAccessToken
           Sample.generateRefreshToken 7 SampleProfile.world eq_refl).
Defined.

Lemma loginUser_wrong_password_witness :
  Sample.loginUser SampleProfile.login_wrong SampleProfile.world =
  (inl (ApiError 401 "Password invalid"),
   logged (FindOne (Some "ab1") (Some "a@b.com")) SampleProfile.world).
Proof.
  exact (loginUser_wrong_password Sample.isPasswordCorrect Sample.generateAccessToken
           Sample.generateRefreshToken SampleProfile.login_wrong SampleProfile.world
           Sample.ab1 eq_refl eq_refl eq_refl eq_refl).
Defined.

Lemma loginUser_success_witness :
  exists resp w' u,
    Sample.loginUser Sample.login_both SampleProfile.world = (inr resp, w')
    /\ status resp = 200
    /\ cookie resp = [("accessToken", VStr (Sample.generateAccessToken Sample.ab1), options);
                      ("refreshToken", VStr (Sample.generateRefreshToken Sample.ab1), options)]
    /\ fieldOf "refreshToken" (data (json resp)) =
       Some (VStr (Sample.generateRefreshToken Sample.ab1))
    /\ Doc.refreshToken u = Some (Sample.generateRefreshToken Sample.ab1)
    /\ account (Doc._id Sample.ab1) w' = Some u
    /\ fieldOf "user" (data (json resp)) = Some (select "-password -refreshToken" (Some u))
    /\ hasField "password" (select "-password -refreshToken" (Some u)) = false
    /\ hasField "refreshToken" (select "-password -refreshToken" (Some u)) = false.
Proof.
  exact (loginUser_success Sample.isPasswordCorrect Sample.generateAccessToken
           Sample.generateRefreshToken Sample.login_both SampleProfile.world
           Sample.ab1 eq_refl eq_refl eq_refl eq_refl sample_ids).
Defined.

Lemma loginUser_frame_witness :
  withoutTokens (snd (Sample.loginUser Sample.login_both SampleProfile.world)) =
  withoutTokens SampleProfile.world.
Proof.
  exact (loginUser_frame Sample.isPasswordCorrect Sample.generateAccessToken
           Sample.generateRefreshToken Sample.login_both SampleProfile.world sample_ids).
Defined.

Lemma loginUser_then_logoutUser_witness :
  docs (snd (logoutUser Sample.logout_ab1
               (snd (Sample.loginUser Sample.login_both SampleProfile.world)))) =
  docs (snd (logoutUser Sample.logout_ab1 SampleProfile.world))
  /\ account (Doc._id Sample.ab1)
       (snd (logoutUser Sample.logout_ab1
               (snd (Sample.loginUser Sample.login_both SampleProfile.world)))) =
     Some (Doc.setRefreshToken Sample.ab1 None).
Proof.
  exact (loginUser_then_logoutUser Sample.isPasswordCorrect Sample.generateAccessToken
           Sample.generateRefreshToken Sample.login_both Sample.logout_ab1
           SampleProfile.world Sample.ab1 Sample.ab1
           eq_refl eq_refl eq_refl eq_refl sample_ids eq_refl eq_refl).
Defined.

Lemma refreshAccessToken_never_succeeds_witness :
  rejectsWith 401 (Sample.refreshAccessToken Sample.refresh_current SampleProfile.world)
  /\ docs (snd (Sample.refreshAccessToken Sample.refresh_current SampleProfile.world)) =
     docs SampleProfile.world.
Proof.
  apply (refreshAccessToken_never_succeeds Sample.generateAccessToken
           Sample.generateRefreshToken Sample.jwt_verify Sample.looseEq
           Sample.refresh_current SampleProfile.world).
  intros [[|c s]|] H; try discriminate H; now eexists.
Defined.

Lemma registerUser_success_witness :
  exists resp w',
    Sample.registerUser SampleProfile.register_ef SampleProfile.world = (inr resp, w')
    /\ status resp = 201
    /\ docs w' = docs SampleProfile.world ++
                 [registeredAccount Sample.hashPassword Sample.upload
                    SampleProfile.register_ef SampleProfile.world
                    "E F" "e@f.com" "Ef3" "pw-ef" SampleProfile.avatar_ef]
    /\ fieldOf "username" (data (json resp)) = Some (VStr (JS.toLowerCase "Ef3"))
    /\ fieldOf "email" (data (json resp)) = Some (VStr "e@f.com")
    /\ fieldOf "avatar" (data (json resp)) = Some (VStr (url SampleProfile.avatar_ef))
    /\ fieldOf "password" (data (json resp)) = None.
Proof.
  exact (registerUser_success Sample.hashPassword Sample.upload
           SampleProfile.register_ef SampleProfile.world "E F" "e@f.com" "Ef3" "pw-ef"
           (Some "tmp/a.png") SampleProfile.avatar_ef sample_canRegister).
Defined.

Lemma registerUser_twice_witness :
  fst (Sample.registerUser SampleProfile.register_ef
         (snd (Sample.registerUser SampleProfile.register_ef SampleProfile.world))) =
    inl (ApiError 409 "User with email or username already exists")
  /\ docs (snd (Sample.registerUser SampleProfile.register_ef
                  (snd (Sample.registerUser SampleProfile.register_ef
                          SampleProfile.world)))) =
     docs (snd (Sample.registerUser SampleProfile.register_ef SampleProfile.world)).
Proof.
  exact (registerUser_twice Sample.hashPassword Sample.upload
           SampleProfile.register_ef SampleProfile.world "E F" "e@f.com" "Ef3" "pw-ef"
           (Some "tmp/a.png") SampleProfile.avatar_ef sample_canRegister).
Defined.

Lemma registerUser_keeps_unique_witness :
  uniqueAccounts SampleProfile.world
  /\ uniqueAccounts (snd (Sample.registerUser SampleProfile.register_ef SampleProfile.world)).
Proof.
  split; [exact sample_unique|].
  exact (registerUser_keeps_unique Sample.hashPassword Sample.upload
           SampleProfile.register_ef SampleProfile.world sample_unique).
Defined.

Lemma registerUser_keeps_lowercase_witness :
  usernamesLowercase (snd (Sample.registerUser SampleProfile.register_ef
                             SampleProfile.world)).
Proof.
  apply (registerUser_keeps_lowercase Sample.hashPassword Sample.upload
           SampleProfile.register_ef (w := SampleProfile.world)).
  intros d [<-|[<-|[]]]; reflexivity.
Defined.

Lemma registerUser_files_without_avatar_witness :
  Sample.registerUser SampleProfile.register_ef_no_entry SampleProfile.world =
  (inl (TypeError "Cannot read properties of undefined (reading '0')"),
   logged (FindOne (Some "Ef3") (Some "e@f.com")) SampleProfile.world).
Proof.
  apply (registerUser_files_without_avatar Sample.hashPassword Sample.upload
           SampleProfile.register_ef_no_entry SampleProfile.world (Files.mk None None)).
  - no_blank.
  - intros d [<-|[<-|[]]]; split; discriminate.
  - reflexivity.
  - reflexivity.
Defined.

Lemma registerUser_absent_username_witness :
  Sample.registerUser SampleProfile.register_ef_no_username SampleProfile.world =
  (inl (TypeError "Cannot read properties of undefined (reading 'toLowerCase')"),
   mkWorld (docs SampleProfile.world)
     (calls SampleProfile.world ++
        [FindOne None (Some "e@f.com");
         UploadOnCloudinary (Some "tmp/a.png");
         UploadOnCloudinary None])).
Proof.
  apply (registerUser_absent_username Sample.hashPassword Sample.upload
           SampleProfile.register_ef_no_username SampleProfile.world
           (Some "tmp/a.png") SampleProfile.avatar_ef).
  - reflexivity.
  - intros f H; cbn in H.
    destruct H as [<-|[<-|[<-|[<-|[]]]]]; intros (s & E & Hs); try discriminate;
      injection E as <-; discriminate.
  - intros d [<-|[<-|[]]]; split; discriminate.
  - reflexivity.
  - reflexivity.
  - reflexivity.
Defined.

Lemma registerUser_then_loginUser_witness :
  exists resp w',
    Sample.loginUser SampleProfile.register_ef
      (snd (Sample.registerUser SampleProfile.register_ef SampleProfile.world)) =
    (inr resp, w')
    /\ status resp = 200
    /\ account (freshId (docs SampleProfile.world)) w' =
       Some (issued Sample.generateRefreshToken
               (registeredAccount Sample.hashPassword Sample.upload
                  SampleProfile.register_ef SampleProfile.world
                  "E F" "e@f.com" "Ef3" "pw-ef" SampleProfile.avatar_ef)).
Proof.
  exact (registerUser_then_loginUser Sample.hashPassword Sample.upload
           Sample.isPasswordCorrect Sample.generateAccessToken
           Sample.generateRefreshToken SampleProfile.register_ef SampleProfile.world
           "E F" "e@f.com" "Ef3" "pw-ef" (Some "tmp/a.png") SampleProfile.avatar_ef
           sample_canRegister sample_passwordsAgree sample_ids).
Defined.

Lemma changeCurrentPassword_wrong_old_witness :
  SampleProfile.changeCurrentPassword SampleProfile.change_password_wrong
    SampleProfile.world =
  (inl (ApiError 400 "Invalid old password"),
   logged (FindById (Some 1)) SampleProfile.world).
Proof.
  exact (changeCurrentPassword_wrong_old Sample.hashPassword SampleProfile.hashUndefined
           Sample.isPasswordCorrect SampleProfile.change_password_wrong
           SampleProfile.world Sample.ab1 Sample.ab1 eq_refl eq_refl eq_refl).
Defined.

Lemma changeCurrentPassword_success_witness :
  exists resp w',
    SampleProfile.changeCurrentPassword SampleProfile.change_password SampleProfile.world =
    (inr resp, w')
    /\ status resp = 200
    /\ docs w' = updateById 1 (setPassword (Sample.hashPassword "pw-new"))
                   (docs SampleProfile.world)
    /\ account 1 w' = Some (setPassword (Sample.hashPassword "pw-new") Sample.ab1)
    /\ Doc.refreshToken (setPassword (Sample.hashPassword "pw-new") Sample.ab1) =
       Doc.refreshToken Sample.ab1
    /\ (forall m, m <> 1 -> account m w' = account m SampleProfile.world).
Proof.
  exact (changeCurrentPassword_success Sample.hashPassword SampleProfile.hashUndefined
           Sample.isPasswordCorrect SampleProfile.change_password SampleProfile.world
           Sample.ab1 Sample.ab1 "pw-new" eq_refl eq_refl eq_refl eq_refl sample_ids).
Defined.

Lemma changeCurrentPassword_no_account_witness :
  SampleProfile.changeCurrentPassword SampleProfile.change_password_nobody
    SampleProfile.world =
  (inl (TypeError "Cannot read properties of null (reading 'isPasswordCorrect')"),
   logged (FindById None) SampleProfile.world).
Proof.
  apply (changeCurrentPassword_no_account Sample.hashPassword SampleProfile.hashUndefined
           Sample.isPasswordCorrect SampleProfile.change_password_nobody
           SampleProfile.world).
  intros actor H; discriminate H.
Defined.

Lemma changeCurrentPassword_then_loginUser_witness :
  exists resp w',
    Sample.loginUser SampleProfile.login_new_password
      (snd (SampleProfile.changeCurrentPassword SampleProfile.change_password
              SampleProfile.world)) = (inr resp, w')
    /\ status resp = 200
    /\ cookie resp =
       [("accessToken",
         VStr (Sample.generateAccessToken
                 (setPassword (Sample.hashPassword "pw-new") Sample.ab1)), options);
        ("refreshToken",
         VStr (Sample.generateRefreshToken
                 (setPassword (Sample.hashPassword "pw-new") Sample.ab1)), options)].
Proof.
  assert (Doc.username Sample.ab1 <> "") as Nu by discriminate.
  assert (Doc.email Sample.ab1 <> "") as Ne by discriminate.
  exact (changeCurrentPassword_then_loginUser Sample.hashPassword
           SampleProfile.hashUndefined Sample.isPasswordCorrect
           Sample.generateAccessToken Sample.generateRefreshToken
           SampleProfile.change_password SampleProfile.login_new_password
           SampleProfile.world Sample.ab1 Sample.ab1 "pw-new"
           eq_refl eq_refl eq_refl eq_refl sample_unique sample_passwordsAgree
           eq_refl eq_refl eq_refl Nu Ne).
Defined.

Lemma updateAccountDetails_success_witness :
  exists resp w',
    SampleProfile.updateAccountDetails SampleProfile.update_details SampleProfile.world =
    (inr resp, w')
    /\ status resp = 200
    /\ docs w' = updateById 1 (setDetails (Some "A. B.") (Some "ab@b.com"))
                   (docs SampleProfile.world)
    /\ fieldOf "fullName" (data (json resp)) = Some (VStr "A. B.")
    /\ fieldOf "email" (data (json resp)) = Some (VStr "ab@b.com")
    /\ fieldOf "password" (data (json resp)) = None
    /\ fieldOf "refreshToken" (data (json resp)) =
       option_map VStr (Doc.refreshToken Sample.ab1).
Proof.
  assert ("A. B." <> "") as Nf by discriminate.
  assert ("ab@b.com" <> "") as Ne by discriminate.
  assert (forall d, In d (docs SampleProfile.world) -> Doc._id d <> Doc._id Sample.ab1 ->
                    Doc.email d <> "ab@b.com") as Hfree
    by (intros d [<-|[<-|[]]] _; discriminate).
  exact (updateAccountDetails_success SampleProfile.updateWithoutId
           SampleProfile.update_details SampleProfile.world Sample.ab1 Sample.ab1
           "A. B." "ab@b.com" eq_refl eq_refl eq_refl eq_refl Nf Ne Hfree).
Defined.

Lemma updateAccountDetails_email_taken_witness :
  SampleProfile.updateAccountDetails SampleProfile.update_details_taken
    SampleProfile.world =
  (inl (LibraryError "MongoServerError" "E11000 duplicate key error"), SampleProfile.world).
Proof.
  assert ("c@d.com" <> "") as Ne by discriminate.
  assert (In SampleProfile.cd2 (docs SampleProfile.world)) as Hin by (right; now left).
  assert (Doc._id SampleProfile.cd2 <> Doc._id Sample.ab1) as Hi by discriminate.
  exact (updateAccountDetails_email_taken SampleProfile.updateWithoutId
           SampleProfile.update_details_taken SampleProfile.world Sample.ab1 Sample.ab1
           SampleProfile.cd2 "c@d.com" eq_refl eq_refl eq_refl eq_refl Ne Hin Hi eq_refl).
Defined.

Lemma updateAccountDetails_keeps_unique_witness :
  uniqueAccounts (snd (SampleProfile.updateAccountDetails SampleProfile.update_details
                         SampleProfile.world)).
Proof.
  exact (updateAccountDetails_keeps_unique SampleProfile.updateWithoutId
           SampleProfile.update_details SampleProfile.world Sample.ab1 eq_refl
           sample_unique).
Defined.

Lemma updateUser_upload_null_witness :
  updateUserAvatar SampleProfile.uploadFails SampleProfile.updateWithoutId
    SampleProfile.upload_file SampleProfile.world =
    (inl (TypeError "Cannot read properties of null (reading 'url')"),
     logged (UploadOnCloudinary (Some "tmp/new.png")) SampleProfile.world)
  /\ updateUserCoverImage SampleProfile.uploadFails SampleProfile.updateWithoutId
       SampleProfile.upload_file SampleProfile.world =
    (inl (TypeError "Cannot read properties of null (reading 'url')"),
     logged (UploadOnCloudinary (Some "tmp/new.png")) SampleProfile.world).
Proof.
  exact (updateUser_upload_null SampleProfile.uploadFails SampleProfile.updateWithoutId
           SampleProfile.upload_file SampleProfile.world eq_refl eq_refl).
Defined.

Lemma updateUserAvatar_success_witness :
  SampleProfile.updateUserAvatar SampleProfile.upload_file SampleProfile.world =
  (inr None,
   mkWorld (updateById 1 (setAvatar "https://media.example/tmp/new.png")
              (docs SampleProfile.world))
           (calls SampleProfile.world ++ [UploadOnCloudinary (Some "tmp/new.png")])).
Proof.
  assert (url (mkUpload "https://media.example/tmp/new.png") <> "") as Nu by discriminate.
  exact (updateUserAvatar_success Sample.upload SampleProfile.updateWithoutId
           SampleProfile.upload_file SampleProfile.world Sample.ab1
           (mkUpload "https://media.example/tmp/new.png") eq_refl eq_refl eq_refl Nu).
Defined.

Lemma updateUserCoverImage_success_witness :
  exists resp w',
    SampleProfile.updateUserCoverImage SampleProfile.upload_file SampleProfile.world =
    (inr (Some resp), w')
    /\ status resp = 200
    /\ docs w' = updateById 1 (setCoverImage "https://media.example/tmp/new.png")
                   (docs SampleProfile.world)
    /\ fieldOf "coverImage" (data (json resp)) =
       Some (VStr "https://media.example/tmp/new.png")
    /\ fieldOf "password" (data (json resp)) = None
    /\ fieldOf "refreshToken" (data (json resp)) =
       option_map VStr (Doc.refreshToken Sample.ab1).
Proof.
  assert (url (mkUpload "https://media.example/tmp/new.png") <> "") as Nu by discriminate.
  exact (updateUserCoverImage_success Sample.upload SampleProfile.updateWithoutId
           SampleProfile.upload_file SampleProfile.world Sample.ab1 Sample.ab1
           (mkUpload "https://media.example/tmp/new.png")
           eq_refl eq_refl eq_refl eq_refl Nu).
Defined.
